(** * Volume monitoring: frequency detection, thresholds, trends and alerts

    A shallow embedding of the analytical core of the repository
    (frequency_detector.py, trend_analyzer.py, weekly_monitoring.py,
    volume_analysis.py, volume_analysis_v2.py).

    Python floats are idealised as real numbers; a pandas/numpy column is a
    list; a calendar date is its day number (an integer), so that a
    [timedelta] in days is a difference of integers.  A division of numpy
    scalars by zero does not raise: it yields [inf], [-inf] or [nan].  The
    type [npfloat] keeps those three values apart from the real numbers,
    and the quotients of the trend analyzer, of the threshold calculators
    and of the alert engines are computed with [np_div].  The means are
    taken of non-empty arrays only. *)

From Stdlib Require Import String.
From Stdlib Require Import Reals Lra Lia ZArith Bool List Permutation Sorted.
Import ListNotations.
Open Scope R_scope.

(** ** Numeric helpers (Python builtins and numpy) *)

Module Np.

(** Boolean comparisons of reals, for [if] conditions. *)
Definition Rltb (a b : R) : bool := if Rlt_dec a b then true else false.
Definition Rleb (a b : R) : bool := if Rle_dec a b then true else false.

(** [max(a, b)]: Python keeps the first argument unless a later one is
    strictly greater. *)
Definition py_max (a b : R) : R := if Rltb a b then b else a.

(** [max(a, b, c)]. *)
Definition py_max3 (a b c : R) : R := py_max (py_max a b) c.

(** [min(a, b)]: the first argument unless a later one is strictly
    smaller. *)
Definition py_min (a b : R) : R := if Rltb b a then b else a.

(** The result of a numpy floating-point operation that may have left the
    real numbers. *)
Inductive npfloat : Type :=
| Num (x : R)
| PInf
| NInf
| NaN.

(** [a / b] on numpy scalars. *)
Definition np_div (a b : R) : npfloat :=
  if Req_dec_T b 0 then
    if Rltb 0 a then PInf else if Rltb a 0 then NInf else NaN
  else Num (a / b).

(** [x * c] for a real constant [c]. *)
Definition np_scale (x : npfloat) (c : R) : npfloat :=
  match x with
  | Num v => Num (v * c)
  | PInf => if Rltb 0 c then PInf else if Rltb c 0 then NInf else NaN
  | NInf => if Rltb 0 c then NInf else if Rltb c 0 then PInf else NaN
  | NaN => NaN
  end.

(** [abs(x)]. *)
Definition np_abs (x : npfloat) : npfloat :=
  match x with
  | Num v => Num (Rabs v)
  | PInf | NInf => PInf
  | NaN => NaN
  end.

(** [x < c], [x > c], [x >= c] against a real constant; every comparison
    with [nan] is false. *)
Definition np_ltb (x : npfloat) (c : R) : bool :=
  match x with
  | Num v => Rltb v c
  | NInf => true
  | PInf | NaN => false
  end.

Definition np_gtb (x : npfloat) (c : R) : bool :=
  match x with
  | Num v => Rltb c v
  | PInf => true
  | NInf | NaN => false
  end.

Definition np_geb (x : npfloat) (c : R) : bool :=
  match x with
  | Num v => Rleb c v
  | PInf => true
  | NInf | NaN => false
  end.

(** [np.sum]. *)
Definition sum (l : list R) : R := fold_right Rplus 0 l.

(** [np.mean] of a non-empty array. *)
Definition mean (l : list R) : R := sum l / INR (length l).

(** [np.std] (population standard deviation, [ddof=0]). *)
Definition std (l : list R) : R :=
  sqrt (mean (map (fun x => (x - mean l) * (x - mean l)) l)).

(** [sorted]: insertion into an ascending list, for a boolean order. *)
Fixpoint insert_by {A : Type} (leb : A -> A -> bool) (x : A) (l : list A)
  : list A :=
  match l with
  | [] => [x]
  | y :: t => if leb x y then x :: y :: t else y :: insert_by leb x t
  end.

Fixpoint sort_by {A : Type} (leb : A -> A -> bool) (l : list A) : list A :=
  match l with
  | [] => []
  | x :: t => insert_by leb x (sort_by leb t)
  end.

(** [np.percentile(a, q)] with the default linear interpolation, for an
    integer percentage [q]: the virtual index is [q * (n - 1) / 100]. *)
Definition percentile (a : list R) (q : nat) : R :=
  let s := sort_by Rleb a in
  let n := length a in
  let pos := (q * (n - 1))%nat in
  let lo := (pos / 100)%nat in
  let hi := Nat.min (lo + 1) (n - 1) in
  let gamma := INR (pos mod 100) / 100 in
  nth lo s 0 + (nth hi s 0 - nth lo s 0) * gamma.

(** [np.median]. *)
Definition median (a : list R) : R := percentile a 50.

(** [np.min] and [np.max] of a non-empty array. *)
Definition np_min (a : list R) : R :=
  match a with
  | [] => 0
  | x :: t => fold_left Rmin t x
  end.

Definition np_max (a : list R) : R :=
  match a with
  | [] => 0
  | x :: t => fold_left Rmax t x
  end.

(** [l[-k:]] / [DataFrame.tail(k)]: the last [k] elements. *)
Definition tail {A : Type} (k : nat) (l : list A) : list A :=
  skipn (length l - k) l.

End Np.

Import Np.

(** ** Frames of volume observations *)

Module Frame.

(** A row of the volume table. *)
Record row : Type := {
  app : string;
  message_type : string;
  week_start_date : Z;
  volume : R
}.

Definition key : Type := (string * string)%type.

Definition key_of (r : row) : key := (app r, message_type r).

Definition key_eqb (a b : key) : bool :=
  String.eqb (fst a) (fst b) && String.eqb (snd a) (snd b).

Definition key_eq_dec (a b : key) : {a = b} + {a <> b}.
Proof. decide equality; apply string_dec. Defined.

(** Tuples of strings compare lexicographically. *)
Definition key_leb (a b : key) : bool :=
  match String.compare (fst a) (fst b) with
  | Lt => true
  | Eq => String.leb (snd a) (snd b)
  | Gt => false
  end.

(** [frame[(frame['app'] == app) & (frame['message_type'] == msg_type)]]. *)
Definition rows_of (k : key) (frame : list row) : list row :=
  filter (fun r => key_eqb (key_of r) k) frame.

(** [frame[frame['week_start_date'] < d]]. *)
Definition before (d : Z) (frame : list row) : list row :=
  filter (fun r => (week_start_date r <? d)%Z) frame.

(** [frame[frame['week_start_date'] == d]]. *)
Definition on_date (d : Z) (frame : list row) : list row :=
  filter (fun r => (week_start_date r =? d)%Z) frame.

(** The distinct keys of a frame, in ascending order. *)
Definition group_keys (df : list row) : list key :=
  sort_by key_leb (nodup key_eq_dec (map key_of df)).

(** [df.groupby(['app', 'message_type'])]: one group per distinct key, in
    ascending key order, each with its rows in frame order. *)
Definition groupby (df : list row) : list (key * list row) :=
  map (fun k => (k, rows_of k df)) (group_keys df).

End Frame.

(** ** frequency_detector.py *)

Module FrequencyDetector.

Import Frame.

Inductive frequency : Type :=
| insufficient_data
| single_occurrence
| daily
| weekly
| biweekly
| monthly
| quarterly
| semi_annual
| irregular.

(** [[(dates[i+1] - dates[i]).days for i in range(len(dates)-1)]]. *)
Fixpoint gaps_of (dates : list Z) : list Z :=
  match dates with
  | d1 :: ((d2 :: _) as t) => (d2 - d1)%Z :: gaps_of t
  | _ => []
  end.

(** The classification by average gap and regularity (source lines 53-79),
    returning the frequency and the confidence. *)
Definition classify (avg_gap regularity_score : R) : frequency * R :=
  if Rleb avg_gap 10 && Rltb 0.5 regularity_score then
    (daily, regularity_score)
  else if Rltb 10 avg_gap && Rleb avg_gap 21 && Rltb 0.4 regularity_score
  then (weekly, regularity_score)
  else if Rltb 21 avg_gap && Rleb avg_gap 45 then
    (if Rltb 0.4 regularity_score then biweekly else monthly,
     regularity_score)
  else if Rltb 45 avg_gap && Rleb avg_gap 120 then
    (if Rltb 0.5 regularity_score then monthly else quarterly,
     regularity_score * 0.8)
  else if Rltb 120 avg_gap && Rleb avg_gap 270 then
    (if Rltb 0.5 regularity_score then quarterly else semi_annual,
     regularity_score * 0.7)
  else
    (if Rltb 0.3 regularity_score then semi_annual else irregular,
     regularity_score * 0.5).

(** [analyze_occurrence_pattern(dates)]: the tuple
    [(frequency, confidence, avg_gap, regularity_score)].  The quotient
    [std_gap / avg_gap] is taken under the test [avg_gap > 0]. *)
Definition analyze_occurrence_pattern (dates : list Z)
  : frequency * R * R * R :=
  if (length dates <? 2)%nat then (insufficient_data, 0, 0, 0)
  else
    let dates := sort_by Z.leb dates in
    let gaps := map IZR (gaps_of dates) in
    if (length gaps =? 0)%nat then (single_occurrence, 0, 0, 0)
    else
      let avg_gap := mean gaps in
      let std_gap := std gaps in
      let cv_gap := if Rltb 0 avg_gap then std_gap / avg_gap else 1 in
      let regularity_score := py_max 0 (1 - py_min cv_gap 1) in
      let '(frequency, confidence) := classify avg_gap regularity_score in
      if Rltb regularity_score 0.3 && (3 <? length gaps)%nat then
        (irregular, 1 - regularity_score, avg_gap, regularity_score)
      else (frequency, confidence, avg_gap, regularity_score).

(** The dictionary returned by [detect_frequency_advanced]. *)
Record frequency_result : Type := {
  frequency_category : frequency;
  confidence : R;
  weeks_with_data : nat;
  occurrence_rate : R;
  avg_gap_days : R;
  regularity_score : R;
  avg_volume : R;
  std_volume : R;
  min_volume : R;
  max_volume : R;
  cv_volume : npfloat;
  total_occurrences : nat
}.

(** [detect_frequency_advanced(group_df, total_weeks)]; every caller leaves
    [total_weeks] at its default, 104, and it is taken positive here. *)
Definition detect_frequency_advanced (group_df : list row)
  (total_weeks : positive) : frequency_result :=
  let dates := map week_start_date group_df in
  let weeks_with_data := length dates in
  let occurrence_rate := INR weeks_with_data / IZR (Zpos total_weeks) in
  let '(frequency, confidence, avg_gap, regularity) :=
    analyze_occurrence_pattern dates in
  let volumes := map volume group_df in
  {| frequency_category := frequency;
     confidence := confidence;
     weeks_with_data := weeks_with_data;
     occurrence_rate := occurrence_rate;
     avg_gap_days := avg_gap;
     regularity_score := regularity;
     avg_volume := mean volumes;
     std_volume := std volumes;
     min_volume := np_min volumes;
     max_volume := np_max volumes;
     cv_volume := if Rltb 0 (mean volumes)
                  then np_div (std volumes) (mean volumes) else Num 0;
     total_occurrences := length dates |}.

End FrequencyDetector.

(** ** trend_analyzer.py *)

Module TrendAnalyzer.

Import Frame.

Inductive direction : Type :=
| no_data
| insufficient_data
| stable
| increasing
| decreasing.

(** The dictionary returned by [calculate_trend_metrics]; the last three
    keys are absent from the dictionary of an empty selection. *)
Record trend_metrics : Type := {
  avg_volume : R;
  total_volume : R;
  trend_direction : direction;
  growth_rate_pct : npfloat;
  volatility : npfloat;
  slope : npfloat;
  data_points : nat;
  min_volume : option R;
  max_volume : option R;
  median_volume : option R
}.

(** [np.arange(n)] as reals. *)
Definition arange (n : nat) : list R := map INR (seq 0 n).

(** Biased covariance, [np.cov(x, y, bias=1)]. *)
Definition cov (x y : list R) : R :=
  mean (map (fun p => (fst p - mean x) * (snd p - mean y)) (combine x y)).

(** The slope of [scipy.stats.linregress(x, y)]: [ssxym / ssxm]. *)
Definition linregress_slope (x y : list R) : npfloat :=
  np_div (cov x y) (cov x x).

(** [volumes[:len(volumes)//2]] averaged when there are at least 4 points,
    the first point otherwise; likewise for the second half. *)
Definition first_half_avg (volumes : list R) : R :=
  if (4 <=? length volumes)%nat
  then mean (firstn (length volumes / 2) volumes)
  else nth 0 volumes 0.

Definition second_half_avg (volumes : list R) : R :=
  if (4 <=? length volumes)%nat
  then mean (skipn (length volumes / 2) volumes)
  else last volumes 0.

(** Lines 49-52. *)
Definition growth_rate (volumes : list R) : npfloat :=
  if Rltb 0 (first_half_avg volumes) then
    np_scale (np_div (second_half_avg volumes - first_half_avg volumes)
                     (first_half_avg volumes)) 100
  else Num 0.

(** Lines 55-60. *)
Definition direction_of (growth_rate : npfloat) : direction :=
  if np_ltb (np_abs growth_rate) 5 then stable
  else if np_gtb growth_rate 5 then increasing
  else decreasing.

(** [calculate_trend_metrics(volumes, dates)]; [dates] is not read. *)
Definition calculate_trend_metrics (volumes : list R) (dates : list Z)
  : trend_metrics :=
  if (length volumes =? 0)%nat then
    {| avg_volume := 0; total_volume := 0; trend_direction := no_data;
       growth_rate_pct := Num 0; volatility := Num 0; slope := Num 0;
       data_points := 0;
       min_volume := None; max_volume := None; median_volume := None |}
  else
    let avg := mean volumes in
    let total := sum volumes in
    let vol := if Rltb 0 avg then np_div (std volumes) avg else Num 0 in
    let '(sl, gr, dir) :=
      if (2 <=? length volumes)%nat then
        let x := arange (length volumes) in
        let sl := linregress_slope x volumes in
        let gr := growth_rate volumes in
        (sl, gr, direction_of gr)
      else (Num 0, Num 0, insufficient_data) in
    {| avg_volume := avg; total_volume := total; trend_direction := dir;
       growth_rate_pct := gr; volatility := vol; slope := sl;
       data_points := length volumes;
       min_volume := Some (np_min volumes);
       max_volume := Some (np_max volumes);
       median_volume := Some (median volumes) |}.

(** [sort_values('week_start_date')] orders rows by date. *)
Definition date_leb (a b : row) : bool :=
  (week_start_date a <=? week_start_date b)%Z.

(** The fixed windows, in weeks. *)
Definition windows : list (string * Z) :=
  [("2_weeks"%string, 2%Z); ("1_month"%string, 4%Z);
   ("3_months"%string, 13%Z); ("6_months"%string, 26%Z);
   ("9_months"%string, 39%Z); ("12_months"%string, 52%Z);
   ("18_months"%string, 78%Z)].

(** [group_df['week_start_date'].max()]. *)
Definition max_date (group_df : list row) : Z :=
  match map week_start_date group_df with
  | [] => 0%Z
  | d :: t => fold_left Z.max t d
  end.

(** [analyze_trends_multi_window(group_df, reference_date)]. *)
Definition analyze_trends_multi_window (group_df : list row)
  (reference_date : option Z) : list (string * trend_metrics) :=
  let reference_date :=
    match reference_date with
    | None => max_date group_df
    | Some d => d
    end in
  map (fun w : string * Z =>
         let cutoff_date := (reference_date - 7 * snd w)%Z in
         let window_data :=
           sort_by date_leb
             (filter (fun r => (cutoff_date <? week_start_date r)%Z
                               && (week_start_date r <=? reference_date)%Z)
                     group_df) in
         (fst w,
          calculate_trend_metrics (map volume window_data)
                                  (map week_start_date window_data)))
      windows.

Inductive comparison_status : Type :=
| status_insufficient_data
| status_normal
| status_increasing
| status_decreasing.

(** The dictionary returned by [compare_recent_to_historical]; the key
    [recent_weeks] is absent when the history is too short. *)
Record comparison : Type := {
  recent_avg : R;
  historical_avg : R;
  change_pct : npfloat;
  status : comparison_status;
  recent_weeks_used : option nat
}.

(** [df_sorted.iloc[:-recent_weeks]]; [-0] is [0], so the slice is empty
    when [recent_weeks] is 0. *)
Definition all_but_last {A : Type} (k : nat) (l : list A) : list A :=
  if (k =? 0)%nat then [] else firstn (length l - k) l.

(** Lines 159-162. *)
Definition change_of (recent_avg historical_avg : R) : npfloat :=
  if Rltb 0 historical_avg then
    np_scale (np_div (recent_avg - historical_avg) historical_avg) 100
  else Num 0.

(** Lines 165-172. *)
Definition status_of (change_pct : npfloat) : comparison_status :=
  if np_ltb (np_abs change_pct) 10 then status_normal
  else if np_gtb change_pct 10 then status_increasing
  else if np_ltb change_pct (-10) then status_decreasing
  else status_normal.

(** [compare_recent_to_historical(group_df, recent_weeks)]. *)
Definition compare_recent_to_historical (group_df : list row)
  (recent_weeks : nat) : comparison :=
  if (length group_df <? recent_weeks + 4)%nat then
    {| recent_avg := 0; historical_avg := 0; change_pct := Num 0;
       status := status_insufficient_data; recent_weeks_used := None |}
  else
    let df_sorted := sort_by date_leb group_df in
    let recent_data := tail recent_weeks df_sorted in
    let recent := mean (map volume recent_data) in
    let historical_data := all_but_last recent_weeks df_sorted in
    let historical := mean (map volume historical_data) in
    let change := change_of recent historical in
    {| recent_avg := recent; historical_avg := historical;
       change_pct := change; status := status_of change;
       recent_weeks_used := Some recent_weeks |}.

End TrendAnalyzer.

(** ** weekly_monitoring.py *)

Module WeeklyMonitoring.

Import Frame.

Inductive sensitivity : Type := high | medium | low.

Record config : Type := {
  z_score : R;
  percentile_q : nat;
  min_weeks : nat
}.

Definition SENSITIVITY_CONFIGS (s : sensitivity) : config :=
  match s with
  | high => {| z_score := 1.5; percentile_q := 10; min_weeks := 4 |}
  | medium => {| z_score := 2; percentile_q := 5; min_weeks := 6 |}
  | low => {| z_score := 2.5; percentile_q := 2; min_weeks := 8 |}
  end.

(** The dictionary returned by [calculate_dynamic_threshold], with the
    nested [methods] dictionary flattened. *)
Record threshold_info : Type := {
  threshold : R;
  mean_vol : R;
  std_vol : R;
  method_z_score : R;
  method_percentile : R;
  method_iqr : R
}.

(** [calculate_dynamic_threshold(volumes, sensitivity)]. *)
Definition calculate_dynamic_threshold (volumes : list R)
  (s : sensitivity) : threshold_info :=
  let config := SENSITIVITY_CONFIGS s in
  let mean_vol := mean volumes in
  let std_vol := std volumes in
  let z_threshold := py_max 0 (mean_vol - z_score config * std_vol) in
  let percentile_threshold := percentile volumes (percentile_q config) in
  let q1 := percentile volumes 25 in
  let q3 := percentile volumes 75 in
  let iqr := q3 - q1 in
  let iqr_threshold := py_max 0 (q1 - 1.5 * iqr) in
  let final_threshold :=
    py_max3 z_threshold percentile_threshold iqr_threshold in
  {| threshold := final_threshold; mean_vol := mean_vol;
     std_vol := std_vol; method_z_score := z_threshold;
     method_percentile := percentile_threshold;
     method_iqr := iqr_threshold |}.

Inductive severity : Type := CRITICAL | HIGH | MEDIUM | LOW.

Inductive alert_type : Type := NO_DATA | VOLUME_DROP.

(** A row of the alert table.  [recent_4wk_avg] is absent from a [NO_DATA]
    row; the free-text [message] column is left out. *)
Record alert : Type := {
  alert_app : string;
  alert_message_type : string;
  alert_week_start_date : Z;
  current_volume : R;
  alert_threshold : R;
  mean_volume : R;
  recent_4wk_avg : option R;
  drop_from_mean_pct : npfloat;
  alert_severity : severity;
  kind : alert_type
}.

(** Lines 169-176. *)
Definition classify_severity (drop_pct : npfloat) : severity :=
  if np_geb drop_pct 70 then CRITICAL
  else if np_geb drop_pct 50 then HIGH
  else if np_geb drop_pct 30 then MEDIUM
  else LOW.

(** The body of the loop over the groups (lines 117-190): the alerts it
    appends for one group. *)
Definition check_group (check_date : Z) (s : sensitivity)
  (current_week_data : list row) (k : key) (group : list row)
  : list alert :=
  let config := SENSITIVITY_CONFIGS s in
  if (length group <? min_weeks config)%nat then []
  else
    match rows_of k current_week_data with
    | [] =>
        let historical_data := before check_date group in
        if (min_weeks config <=? length historical_data)%nat then
          let threshold_info :=
            calculate_dynamic_threshold (map volume historical_data) s in
          [ {| alert_app := fst k; alert_message_type := snd k;
               alert_week_start_date := check_date;
               current_volume := 0;
               alert_threshold := threshold threshold_info;
               mean_volume := mean_vol threshold_info;
               recent_4wk_avg := None;
               drop_from_mean_pct := Num 100;
               alert_severity := CRITICAL;
               kind := NO_DATA |} ]
        else []
    | first :: _ =>
        let current_vol := volume first in
        let historical_data := before check_date group in
        if (length historical_data <? min_weeks config)%nat then []
        else
          let threshold_info :=
            calculate_dynamic_threshold (map volume historical_data) s in
          if Rltb current_vol (threshold threshold_info) then
            let drop_pct :=
              np_scale (np_div (mean_vol threshold_info - current_vol)
                               (mean_vol threshold_info)) 100 in
            let recent_4wk :=
              mean (map volume (tail 4 historical_data)) in
            [ {| alert_app := fst k; alert_message_type := snd k;
                 alert_week_start_date := check_date;
                 current_volume := current_vol;
                 alert_threshold := threshold threshold_info;
                 mean_volume := mean_vol threshold_info;
                 recent_4wk_avg := Some recent_4wk;
                 drop_from_mean_pct := drop_pct;
                 alert_severity := classify_severity drop_pct;
                 kind := VOLUME_DROP |} ]
          else []
    end.

(** [detect_weekly_alerts(df, check_date, sensitivity)]. *)
Definition detect_weekly_alerts (df : list row) (check_date : Z)
  (s : sensitivity) : list alert :=
  let current_week_data := on_date check_date df in
  if (length current_week_data =? 0)%nat then []
  else
    flat_map (fun g => check_group check_date s current_week_data
                                   (fst g) (snd g))
             (groupby df).

(** [date.weekday()], Monday being 0, for a date given by its proleptic
    Gregorian ordinal ([date.toordinal()]; day 1 is a Monday). *)
Definition weekday (today : Z) : Z := ((today + 6) mod 7)%Z.

(** The default check date of [main] (lines 298-302): the Monday on or
    before [today]. *)
Definition default_check_date (today : Z) : Z := (today - weekday today)%Z.

End WeeklyMonitoring.

(** ** volume_analysis.py *)

Module VolumeAnalysis.

Import Frame.

(** [SENSITIVITY_LEVELS] holds the same three configurations. *)
Definition SENSITIVITY_LEVELS := WeeklyMonitoring.SENSITIVITY_CONFIGS.

(** The dictionary returned by [calculate_thresholds]. *)
Record thresholds : Type := {
  mean_of : R;
  std_of : R;
  z_score_threshold : R;
  percentile_threshold : R;
  iqr_threshold : R;
  percentage_threshold : R;
  final_threshold : R;
  cv : npfloat
}.

(** [calculate_thresholds(group_df, sensitivity)]. *)
Definition calculate_thresholds (group_df : list row)
  (s : WeeklyMonitoring.sensitivity) : thresholds :=
  let config := SENSITIVITY_LEVELS s in
  let volumes := map volume group_df in
  let mean_vol := mean volumes in
  let std_vol := std volumes in
  let z_threshold :=
    py_max 0 (mean_vol - WeeklyMonitoring.z_score config * std_vol) in
  let percentile_threshold :=
    percentile volumes (WeeklyMonitoring.percentile_q config) in
  let q1 := percentile volumes 25 in
  let q3 := percentile volumes 75 in
  let iqr := q3 - q1 in
  let iqr_threshold := py_max 0 (q1 - 1.5 * iqr) in
  let percentage_threshold := mean_vol * 0.7 in
  let final_threshold :=
    py_max3 z_threshold percentile_threshold iqr_threshold in
  {| mean_of := mean_vol; std_of := std_vol;
     z_score_threshold := z_threshold;
     percentile_threshold := percentile_threshold;
     iqr_threshold := iqr_threshold;
     percentage_threshold := percentage_threshold;
     final_threshold := final_threshold;
     cv := if Rltb 0 mean_vol then np_div std_vol mean_vol else Num 0 |}.

Inductive severity : Type := HIGH | MEDIUM | LOW.

(** Line 258. *)
Definition classify_severity (drop_pct : npfloat) : severity :=
  if np_gtb drop_pct 50 then HIGH
  else if np_gtb drop_pct 30 then MEDIUM
  else LOW.

(** The columns of [threshold_df] that [detect_alerts] reads. *)
Record threshold_row : Type := {
  t_app : string;
  t_message_type : string;
  t_threshold : R;
  t_mean_volume : R
}.

Record alert : Type := {
  alert_app : string;
  alert_message_type : string;
  alert_week_start_date : Z;
  current_volume : R;
  alert_threshold : R;
  mean_volume : R;
  recent_4wk_avg : R;
  drop_from_mean_pct : npfloat;
  alert_severity : severity
}.


(** [detect_frequency(group_df, total_weeks)] (lines 68-88): the label by
    the share of weeks that have data, and that share.  Every caller
    leaves [total_weeks] at its default, 104; it is taken positive here. *)
Definition detect_frequency (group_df : list row) (total_weeks : positive)
  : FrequencyDetector.frequency * R :=
  let weeks_with_data := length group_df in
  let occurrence_rate := INR weeks_with_data / IZR (Zpos total_weeks) in
  if Rleb 0.95 occurrence_rate then
    (FrequencyDetector.daily, occurrence_rate)
  else if Rleb 0.75 occurrence_rate then
    (FrequencyDetector.weekly, occurrence_rate)
  else if Rleb 0.35 occurrence_rate then
    (FrequencyDetector.biweekly, occurrence_rate)
  else if Rleb 0.15 occurrence_rate then
    (FrequencyDetector.monthly, occurrence_rate)
  else if Rleb 0.05 occurrence_rate then
    (FrequencyDetector.quarterly, occurrence_rate)
  else (FrequencyDetector.semi_annual, occurrence_rate).

End VolumeAnalysis.

(** ** volume_analysis_v2.py *)

Module VolumeAnalysisV2.

(** A row of [threshold_data] (lines 190-202), without the key columns and
    the frequency label copied from the frequency table. *)
Record threshold_row : Type := {
  regularity_score : R;
  mean_volume : R;
  std_volume : R;
  threshold : R;
  adjusted_z_score : R;
  z_threshold : R;
  percentile_threshold : R;
  iqr_threshold : R
}.

(** Line 177. *)
Definition adjusted_z (z_score regularity_factor : R) : R :=
  z_score * (1 + (1 - regularity_factor) * 0.5).

(** The body of the threshold loop of [main] (lines 170-202) for one
    group's volumes and the regularity score of its frequency row. *)
Definition pattern_aware_threshold (volumes : list R)
  (regularity_factor : R) (s : WeeklyMonitoring.sensitivity)
  : threshold_row :=
  let config := WeeklyMonitoring.SENSITIVITY_CONFIGS s in
  let mean_vol := mean volumes in
  let std_vol := std volumes in
  let adjusted_z :=
    adjusted_z (WeeklyMonitoring.z_score config) regularity_factor in
  let z_threshold := py_max 0 (mean_vol - adjusted_z * std_vol) in
  let percentile_threshold :=
    percentile volumes (WeeklyMonitoring.percentile_q config) in
  let q1 := percentile volumes 25 in
  let q3 := percentile volumes 75 in
  let iqr := q3 - q1 in
  let iqr_threshold := py_max 0 (q1 - 1.5 * iqr) in
  let final_threshold :=
    py_max3 z_threshold percentile_threshold iqr_threshold in
  {| regularity_score := regularity_factor;
     mean_volume := mean_vol; std_volume := std_vol;
     threshold := final_threshold; adjusted_z_score := adjusted_z;
     z_threshold := z_threshold;
     percentile_threshold := percentile_threshold;
     iqr_threshold := iqr_threshold |}.

End VolumeAnalysisV2.

(** ** Vocabulary of the statements *)

(** A severity of volume_analysis.py read as the severity of the same name
    in weekly_monitoring.py. *)
Definition same_name (v : VolumeAnalysis.severity)
  : WeeklyMonitoring.severity :=
  match v with
  | VolumeAnalysis.HIGH => WeeklyMonitoring.HIGH
  | VolumeAnalysis.MEDIUM => WeeklyMonitoring.MEDIUM
  | VolumeAnalysis.LOW => WeeklyMonitoring.LOW
  end.

(** The category an alert is about. *)
Definition alert_key (a : WeeklyMonitoring.alert) : Frame.key :=
  (WeeklyMonitoring.alert_app a, WeeklyMonitoring.alert_message_type a).

(** The alerts of a table that are about the category [k]. *)
Definition alerts_for (k : Frame.key) (alerts : list WeeklyMonitoring.alert)
  : list WeeklyMonitoring.alert :=
  filter (fun a => Frame.key_eqb (alert_key a) k) alerts.

(** The series of scenario B: 13 dates, 28 days apart, from [start]. *)
Definition every_28_days (start : Z) : list Z :=
  map (fun i => (start + 28 * Z.of_nat i)%Z) (seq 0 13).

(** A sample of six weekly counts. *)
Definition six_counts : list R := [10; 12; 11; 9; 10; 13].

(** The category of the scenarios below. *)
Definition steady_key : Frame.key := ("APP_01"%string, "MT103"%string).

(** Six weekly observations of 100 for one category, on days 0 to 35. *)
Definition steady_history : list Frame.row :=
  map (fun d => {| Frame.app := "APP_01"; Frame.message_type := "MT103";
                   Frame.week_start_date := d; Frame.volume := 100 |})
      [0; 7; 14; 21; 28; 35]%Z.

(** The same history, and an observation of another category on day 42. *)
Definition history_and_other_category : list Frame.row :=
  steady_history
  ++ [ {| Frame.app := "APP_02"; Frame.message_type := "MT202";
          Frame.week_start_date := 42%Z; Frame.volume := 50 |} ].

(** The same history, and an observation of 10 for the category itself on
    day 42. *)
Definition history_and_drop : list Frame.row :=
  steady_history
  ++ [ {| Frame.app := "APP_01"; Frame.message_type := "MT103";
          Frame.week_start_date := 42%Z; Frame.volume := 10 |} ].

(** The NO_DATA alert of the steady category on day 42. *)
Definition steady_no_data_alert : WeeklyMonitoring.alert :=
  let t := WeeklyMonitoring.calculate_dynamic_threshold
             (repeat 100 6) WeeklyMonitoring.medium in
  {| WeeklyMonitoring.alert_app := "APP_01";
     WeeklyMonitoring.alert_message_type := "MT103";
     WeeklyMonitoring.alert_week_start_date := 42;
     WeeklyMonitoring.current_volume := 0;
     WeeklyMonitoring.alert_threshold := WeeklyMonitoring.threshold t;
     WeeklyMonitoring.mean_volume := WeeklyMonitoring.mean_vol t;
     WeeklyMonitoring.recent_4wk_avg := None;
     WeeklyMonitoring.drop_from_mean_pct := Num 100;
     WeeklyMonitoring.alert_severity := WeeklyMonitoring.CRITICAL;
     WeeklyMonitoring.kind := WeeklyMonitoring.NO_DATA |}.

(** [n] dates, [g] days apart, from [start]. *)
Definition evenly_spaced (start g : Z) (n : nat) : list Z :=
  map (fun i => (start + g * Z.of_nat i)%Z) (seq 0 n).

(** The labels of [detect_frequency] from the rarest to the most frequent. *)
Definition frequency_rank (f : FrequencyDetector.frequency) : nat :=
  match f with
  | FrequencyDetector.daily => 5
  | FrequencyDetector.weekly => 4
  | FrequencyDetector.biweekly => 3
  | FrequencyDetector.monthly => 2
  | FrequencyDetector.quarterly => 1
  | _ => 0
  end.

(** * Properties *)

(** ** Comparisons, [max] and [min] *)

Lemma Rltb_spec (a b : R) : reflect (a < b) (Rltb a b).
Proof. unfold Rltb. destruct (Rlt_dec a b); constructor; assumption. Qed.

Lemma Rleb_spec (a b : R) : reflect (a <= b) (Rleb a b).
Proof. unfold Rleb. destruct (Rle_dec a b); constructor; assumption. Qed.

(** Case analysis on every real comparison of the goal, closing the
    branches that contradict the context. *)
Ltac rcases :=
  repeat match goal with
         | |- context [Rltb ?a ?b] =>
             destruct (Rltb_spec a b); simpl; try lra
         | |- context [Rleb ?a ?b] =>
             destruct (Rleb_spec a b); simpl; try lra
         end.

Lemma py_max_Rmax (a b : R) : py_max a b = Rmax a b.
Proof.
  unfold py_max, Rmax.
  destruct (Rltb_spec a b), (Rle_dec a b); lra.
Qed.

Lemma py_min_Rmin (a b : R) : py_min a b = Rmin a b.
Proof.
  unfold py_min, Rmin.
  destruct (Rltb_spec b a), (Rle_dec a b); lra.
Qed.

Lemma py_max_l (a b : R) : a <= py_max a b.
Proof. rewrite py_max_Rmax. apply Rmax_l. Qed.

Lemma py_max_r (a b : R) : b <= py_max a b.
Proof. rewrite py_max_Rmax. apply Rmax_r. Qed.

Lemma py_max3_Rmax (a b c : R) : py_max3 a b c = Rmax (Rmax a b) c.
Proof. unfold py_max3. now rewrite !py_max_Rmax. Qed.

Lemma py_max3_nonneg (a b c : R) : 0 <= a -> 0 <= py_max3 a b c.
Proof.
  intros Ha. unfold py_max3.
  pose proof (py_max_l a b). pose proof (py_max_l (py_max a b) c). lra.
Qed.

Lemma std_nonneg (l : list R) : 0 <= std l.
Proof. apply sqrt_pos. Qed.

(** ** The dynamic threshold *)

(** C3: for every sensitivity and every volume sample with at least
    [min_weeks] entries, the threshold calculators (the production one of
    weekly_monitoring.py, the pattern-aware one of volume_analysis_v2.py
    for any regularity score, and [calculate_thresholds] of
    volume_analysis.py) return a final threshold equal to the maximum of
    the z-score, percentile and IQR thresholds, and that value is never
    negative.  The sign of the counts plays no part. *)
Theorem final_threshold_is_max_and_nonneg
  (volumes : list R) (group_df : list Frame.row)
  (s : WeeklyMonitoring.sensitivity) (regularity : R) :
  (WeeklyMonitoring.min_weeks (WeeklyMonitoring.SENSITIVITY_CONFIGS s)
   <= length volumes)%nat ->
  map Frame.volume group_df = volumes ->
  let t := WeeklyMonitoring.calculate_dynamic_threshold volumes s in
  let t2 := VolumeAnalysisV2.pattern_aware_threshold volumes regularity s in
  let t1 := VolumeAnalysis.calculate_thresholds group_df s in
  (WeeklyMonitoring.threshold t
   = Rmax (Rmax (WeeklyMonitoring.method_z_score t)
                (WeeklyMonitoring.method_percentile t))
          (WeeklyMonitoring.method_iqr t)
   /\ 0 <= WeeklyMonitoring.threshold t)
  /\ (VolumeAnalysisV2.threshold t2
      = Rmax (Rmax (VolumeAnalysisV2.z_threshold t2)
                   (VolumeAnalysisV2.percentile_threshold t2))
             (VolumeAnalysisV2.iqr_threshold t2)
      /\ 0 <= VolumeAnalysisV2.threshold t2)
  /\ (VolumeAnalysis.final_threshold t1
      = Rmax (Rmax (VolumeAnalysis.z_score_threshold t1)
                   (VolumeAnalysis.percentile_threshold t1))
             (VolumeAnalysis.iqr_threshold t1)
      /\ 0 <= VolumeAnalysis.final_threshold t1).
Proof.
  intros _ _. cbn -[py_max3 py_max].
  repeat split;
    first [apply py_max3_Rmax | apply py_max3_nonneg, py_max_l].
Qed.

Lemma final_threshold_is_max_and_nonneg_witness :
  0 <= WeeklyMonitoring.threshold
         (WeeklyMonitoring.calculate_dynamic_threshold
            six_counts WeeklyMonitoring.medium).
Proof.
  apply (final_threshold_is_max_and_nonneg
           six_counts
           (map (fun v => {| Frame.app := "APP_01";
                             Frame.message_type := "MT103";
                             Frame.week_start_date := 0;
                             Frame.volume := v |}) six_counts)
           WeeklyMonitoring.medium 1).
  - simpl. lia.
  - reflexivity.
Defined.

(** ** Pattern-aware adjustment *)

Lemma z_score_pos (s : WeeklyMonitoring.sensitivity) :
  0 < WeeklyMonitoring.z_score (WeeklyMonitoring.SENSITIVITY_CONFIGS s).
Proof. destruct s; simpl; lra. Qed.

(** C7: for a fixed sample and sensitivity, a lower regularity score gives
    a larger adjusted z-score and a lower-or-equal z threshold: whenever
    [r1 <= r2] in [0,1], [adjusted_z] at [r1] is at least [adjusted_z] at
    [r2], and the z threshold at [r1] is at most the one at [r2]. *)
Theorem z_threshold_monotone_in_regularity
  (volumes : list R) (s : WeeklyMonitoring.sensitivity) (r1 r2 : R) :
  0 <= r1 -> r1 <= r2 -> r2 <= 1 ->
  let t1 := VolumeAnalysisV2.pattern_aware_threshold volumes r1 s in
  let t2 := VolumeAnalysisV2.pattern_aware_threshold volumes r2 s in
  VolumeAnalysisV2.adjusted_z_score t1
  = WeeklyMonitoring.z_score (WeeklyMonitoring.SENSITIVITY_CONFIGS s)
    * (1 + (1 - r1) * 0.5)
  /\ VolumeAnalysisV2.z_threshold t1
     = Rmax 0 (mean volumes
               - VolumeAnalysisV2.adjusted_z_score t1 * std volumes)
  /\ VolumeAnalysisV2.adjusted_z_score t2
     <= VolumeAnalysisV2.adjusted_z_score t1
  /\ VolumeAnalysisV2.z_threshold t1 <= VolumeAnalysisV2.z_threshold t2.
Proof.
  intros _ Hr _. cbn -[py_max].
  pose proof (z_score_pos s) as Hz.
  pose proof (std_nonneg volumes) as Hs.
  set (z := WeeklyMonitoring.z_score _) in *.
  assert (Hadj : VolumeAnalysisV2.adjusted_z z r2
                 <= VolumeAnalysisV2.adjusted_z z r1).
  { unfold VolumeAnalysisV2.adjusted_z. nra. }
  repeat split.
  - apply py_max_Rmax.
  - exact Hadj.
  - rewrite !py_max_Rmax.
    apply Rle_max_compat_l. nra.
Qed.

Lemma z_threshold_monotone_in_regularity_witness :
  VolumeAnalysisV2.z_threshold
    (VolumeAnalysisV2.pattern_aware_threshold
       six_counts 0.25 WeeklyMonitoring.medium)
  <= VolumeAnalysisV2.z_threshold
       (VolumeAnalysisV2.pattern_aware_threshold
          six_counts 0.75 WeeklyMonitoring.medium).
Proof.
  apply (z_threshold_monotone_in_regularity
           six_counts WeeklyMonitoring.medium 0.25 0.75); lra.
Defined.

(** ** Severity classes *)

(** C10: the classifier of volume_analysis.py and the one of
    weekly_monitoring.py are not equivalent.  They disagree at every drop
    percentage of at least 70 (HIGH against CRITICAL), at exactly 50
    (MEDIUM against HIGH) and at exactly 30 (LOW against MEDIUM), where
    [same_name] reads a v1 class as the production class of that name. *)
Theorem severity_classifiers_disagree (d : R) :
  70 <= d \/ d = 50 \/ d = 30 ->
  same_name (VolumeAnalysis.classify_severity (Num d))
  <> WeeklyMonitoring.classify_severity (Num d).
Proof.
  intros H.
  unfold VolumeAnalysis.classify_severity, WeeklyMonitoring.classify_severity,
    np_gtb, np_geb.
  destruct H as [H | [H | H]]; rcases; discriminate.
Qed.

Lemma severity_classifiers_disagree_witness :
  VolumeAnalysis.classify_severity (Num 50) = VolumeAnalysis.MEDIUM
  /\ WeeklyMonitoring.classify_severity (Num 50) = WeeklyMonitoring.HIGH
  /\ same_name (VolumeAnalysis.classify_severity (Num 50))
     <> WeeklyMonitoring.classify_severity (Num 50).
Proof.
  split; [| split].
  - unfold VolumeAnalysis.classify_severity, np_gtb. rcases. reflexivity.
  - unfold WeeklyMonitoring.classify_severity, np_geb. rcases. reflexivity.
  - apply (severity_classifiers_disagree 50). right. left. reflexivity.
Defined.

(** ** Sorting *)

Section Sorting.

Context {A : Type} (leb : A -> A -> bool).

Let le (a b : A) : Prop := leb a b = true.

Lemma insert_by_perm (x : A) (l : list A) :
  Permutation (insert_by leb x l) (x :: l).
Proof.
  induction l as [| y t IH]; simpl.
  - reflexivity.
  - destruct (leb x y).
    + reflexivity.
    + rewrite IH. apply perm_swap.
Qed.

Lemma sort_by_perm (l : list A) : Permutation (sort_by leb l) l.
Proof.
  induction l as [| x t IH]; simpl.
  - reflexivity.
  - rewrite insert_by_perm. now constructor.
Qed.

Lemma sort_by_length (l : list A) : length (sort_by leb l) = length l.
Proof. apply Permutation_length, sort_by_perm. Qed.

Lemma sort_by_sorted_id (l : list A) :
  Sorted le l -> sort_by leb l = l.
Proof.
  induction 1 as [| x t Hs IH Hd]; simpl.
  - reflexivity.
  - rewrite IH. destruct Hd as [| y t' Hxy]; simpl.
    + reflexivity.
    + unfold le in Hxy. now rewrite Hxy.
Qed.

Hypothesis leb_total : forall a b, leb a b = false -> leb b a = true.

Lemma insert_by_sorted (x : A) (l : list A) :
  Sorted le l -> Sorted le (insert_by leb x l).
Proof.
  induction 1 as [| y t Hs IH Hd]; simpl.
  - repeat constructor.
  - destruct (leb x y) eqn:Hxy.
    + repeat constructor; assumption.
    + constructor; [exact IH |].
      destruct Hd as [| z t' Hyz]; simpl.
      * constructor. now apply leb_total.
      * destruct (leb x z); constructor;
          [now apply leb_total | assumption].
Qed.

Lemma sort_by_sorted (l : list A) : Sorted le (sort_by leb l).
Proof.
  induction l as [| x t IH]; simpl.
  - constructor.
  - now apply insert_by_sorted.
Qed.

End Sorting.

Lemma Zleb_total (a b : Z) : (a <=? b)%Z = false -> (b <=? a)%Z = true.
Proof. rewrite Z.leb_gt, Z.leb_le. lia. Qed.

Lemma Rleb_total (a b : R) : Rleb a b = false -> Rleb b a = true.
Proof. destruct (Rleb_spec a b), (Rleb_spec b a); try easy; lra. Qed.

(** ** Sums and means *)

Lemma sum_nonneg (l : list R) : Forall (Rle 0) l -> 0 <= sum l.
Proof.
  induction 1 as [| x t Hx _ IH]; unfold sum in *; simpl.
  - lra.
  - lra.
Qed.

Lemma INR_length_pos {A : Type} (l : list A) : l <> [] -> 0 < INR (length l).
Proof.
  destruct l; [easy |]. intros _.
  apply lt_0_INR. simpl. lia.
Qed.

Lemma div_nonneg (a b : R) : 0 <= a -> 0 < b -> 0 <= a / b.
Proof.
  intros Ha Hb. unfold Rdiv.
  apply Rmult_le_pos; [assumption |].
  left. now apply Rinv_0_lt_compat.
Qed.

Lemma mean_nonneg (l : list R) : Forall (Rle 0) l -> 0 <= mean l.
Proof.
  intros H. unfold mean.
  destruct l as [| x t].
  - simpl. lra.
  - apply div_nonneg.
    + now apply sum_nonneg.
    + now apply INR_length_pos.
Qed.

(** A sum of non-negative terms is zero only if every term is. *)
Lemma sum_zero_all_zero (l : list R) :
  Forall (Rle 0) l -> sum l = 0 -> Forall (eq 0) l.
Proof.
  induction 1 as [| x t Hx Ht IH]; intros Hs.
  - constructor.
  - pose proof (sum_nonneg t Ht) as Hn. unfold sum in *. simpl in Hs.
    constructor; [lra | apply IH; lra].
Qed.

Lemma mean_zero_all_zero (l : list R) :
  Forall (Rle 0) l -> mean l = 0 -> Forall (eq 0) l.
Proof.
  intros Hl Hm. destruct l as [| x t]; [constructor |].
  apply sum_zero_all_zero; [assumption |].
  unfold mean in Hm.
  pose proof (INR_length_pos (x :: t) ltac:(easy)) as Hp.
  apply Rmult_eq_reg_r with (r := / INR (length (x :: t))).
  - rewrite Rmult_0_l. exact Hm.
  - apply Rinv_neq_0_compat. lra.
Qed.

(** ** The frequency pattern detector *)

Import FrequencyDetector.

Lemma gaps_of_length (dates : list Z) :
  length (gaps_of dates) = (length dates - 1)%nat.
Proof.
  induction dates as [| d1 [| d2 t] IH]; simpl in *; try reflexivity.
  rewrite IH. lia.
Qed.

Lemma gaps_of_sorted_nonneg (dates : list Z) :
  Sorted (fun a b => (a <=? b)%Z = true) dates ->
  Forall (fun g => (0 <= g)%Z) (gaps_of dates).
Proof.
  induction 1 as [| d1 t Hs IH Hd]; simpl.
  - constructor.
  - destruct Hd as [| d2 t' H12]; constructor.
    + apply Z.leb_le in H12. lia.
    + exact IH.
Qed.

Lemma gaps_nonneg (dates : list Z) :
  Forall (Rle 0) (map IZR (gaps_of (sort_by Z.leb dates))).
Proof.
  apply Forall_map.
  eapply Forall_impl; [| apply gaps_of_sorted_nonneg].
  - intros g Hg. now apply IZR_le.
  - apply sort_by_sorted, Zleb_total.
Qed.

Lemma classify_confidence (avg_gap r : R) :
  0 <= r <= 1 ->
  0 <= snd (classify avg_gap r) <= 1
  /\ (snd (classify avg_gap r) = r
      \/ snd (classify avg_gap r) = r * 0.8
      \/ snd (classify avg_gap r) = r * 0.7
      \/ snd (classify avg_gap r) = r * 0.5)
  /\ fst (classify avg_gap r) <> single_occurrence
  /\ fst (classify avg_gap r) <> insufficient_data.
Proof.
  intros Hr. unfold classify.
  repeat match goal with
         | |- context [if ?c then _ else _] => destruct c; simpl
         end;
    (split; [lra | split; [tauto | split; discriminate]]).
Qed.

Lemma regularity_in_unit (cv_gap : R) :
  0 <= cv_gap -> 0 <= py_max 0 (1 - py_min cv_gap 1) <= 1.
Proof.
  intros Hcv. unfold py_max, py_min. rcases.
Qed.

Lemma cv_gap_nonneg (gaps : list R) :
  0 <= (if Rltb 0 (mean gaps) then std gaps / mean gaps else 1).
Proof.
  destruct (Rltb_spec 0 (mean gaps)).
  - apply div_nonneg; [apply std_nonneg | assumption].
  - lra.
Qed.

Lemma analyze_occurrence_pattern_ranges (dates : list Z) :
  let '(f, c, g, r) := analyze_occurrence_pattern dates in
  0 <= c <= 1 /\ 0 <= r <= 1 /\ 0 <= g
  /\ (c = r \/ c = r * 0.8 \/ c = r * 0.7 \/ c = r * 0.5 \/ c = 1 - r)
  /\ f <> single_occurrence.
Proof.
  unfold analyze_occurrence_pattern.
  destruct (length dates <? 2)%nat eqn:Hshort.
  { repeat split; first [lra | discriminate | (left; reflexivity)]. }
  apply Nat.ltb_ge in Hshort.
  set (gaps := map IZR (gaps_of (sort_by Z.leb dates))).
  assert (Hgaps : (1 <= length gaps)%nat).
  { subst gaps. rewrite length_map, gaps_of_length, sort_by_length. lia. }
  destruct (length gaps =? 0)%nat eqn:Hlen.
  { apply Nat.eqb_eq in Hlen. lia. }
  pose proof (mean_nonneg gaps (gaps_nonneg dates)) as Havg.
  pose proof (regularity_in_unit _ (cv_gap_nonneg gaps)) as Hreg.
  set (r := py_max 0 _) in *.
  pose proof (classify_confidence (mean gaps) r Hreg) as (Hc & Hshape & Hf & _).
  destruct (classify (mean gaps) r) as [f c]. simpl in *.
  destruct (Rltb r 0.3 && (3 <? length gaps)%nat).
  - repeat split; first [lra | tauto | discriminate].
  - repeat split; first [lra | tauto | assumption].
Qed.

(** C9: for every occurrence series, the profile of the detector has its
    confidence and its regularity score in [0,1] and a non-negative average
    gap; the confidence is the regularity score scaled by 1, 0.8, 0.7 or
    0.5, or, under the irregular override, one minus the regularity score.
    This holds for the tuple of [analyze_occurrence_pattern] and for the
    dictionary that [detect_frequency_advanced] builds from it. *)
Theorem frequency_profile_ranges
  (dates : list Z) (group_df : list Frame.row) (total_weeks : positive) :
  (let '(_, c, g, r) := analyze_occurrence_pattern dates in
   0 <= c <= 1 /\ 0 <= r <= 1 /\ 0 <= g
   /\ (c = r \/ c = r * 0.8 \/ c = r * 0.7 \/ c = r * 0.5 \/ c = 1 - r))
  /\ (let p := detect_frequency_advanced group_df total_weeks in
      0 <= confidence p <= 1
      /\ 0 <= regularity_score p <= 1
      /\ 0 <= avg_gap_days p).
Proof.
  split.
  - pose proof (analyze_occurrence_pattern_ranges dates) as H.
    destruct (analyze_occurrence_pattern dates) as [[[f c] g] r].
    tauto.
  - unfold detect_frequency_advanced.
    pose proof (analyze_occurrence_pattern_ranges
                  (map Frame.week_start_date group_df)) as H.
    destruct (analyze_occurrence_pattern _) as [[[f c] g] r].
    simpl. tauto.
Qed.

(** C5 (the code departs from it at one observation): an empty series is
    classified [insufficient_data] with confidence, average gap and
    regularity 0; a series of exactly one observation is classified
    [insufficient_data] as well, not [single_occurrence], because the
    first test of the function returns for every series shorter than 2;
    no series at all is classified [single_occurrence]. *)
Theorem one_observation_is_insufficient_data :
  analyze_occurrence_pattern [] = (insufficient_data, 0, 0, 0)
  /\ (forall d : Z,
         analyze_occurrence_pattern [d] = (insufficient_data, 0, 0, 0))
  /\ (forall dates : list Z,
         fst (fst (fst (analyze_occurrence_pattern dates)))
         <> single_occurrence).
Proof.
  split; [reflexivity | split; [reflexivity |]].
  intros dates.
  pose proof (analyze_occurrence_pattern_ranges dates) as H.
  destruct (analyze_occurrence_pattern dates) as [[[f c] g] r].
  simpl. tauto.
Qed.

Lemma mean_repeat (x : R) (n : nat) : mean (repeat x (S n)) = x.
Proof.
  unfold mean. rewrite repeat_length.
  assert (Hs : forall k, sum (repeat x k) = INR k * x).
  { induction k as [| k IH].
    - simpl. unfold sum. simpl. lra.
    - rewrite S_INR. unfold sum in *. simpl. rewrite IH. lra. }
  rewrite Hs. field.
  apply not_0_INR. lia.
Qed.

Lemma std_repeat (x : R) (n : nat) : std (repeat x (S n)) = 0.
Proof.
  unfold std. rewrite mean_repeat, map_repeat.
  replace ((x - x) * (x - x)) with 0 by ring.
  rewrite mean_repeat. apply sqrt_0.
Qed.

(** C4 (the code departs from it): 13 observations spaced exactly 28 days
    apart have an average gap of 28 days and regularity 1; 28 lies in the
    band [21 < avg_gap <= 45], whose regular case is labelled [biweekly],
    so the detector returns [biweekly] with confidence 1 and not
    [monthly]. *)
Theorem every_28_days_is_biweekly (start : Z) :
  analyze_occurrence_pattern (every_28_days start) = (biweekly, 1, 28, 1).
Proof.
  unfold analyze_occurrence_pattern.
  change (length (every_28_days start) <? 2)%nat with false. cbv iota.
  rewrite sort_by_sorted_id.
  2: { unfold every_28_days. simpl.
       repeat constructor; apply Z.leb_le; lia. }
  replace (gaps_of (every_28_days start)) with (repeat 28%Z 12).
  2: { unfold every_28_days. simpl. repeat (f_equal; try lia). }
  change (map IZR (repeat 28%Z 12)) with (repeat 28 12).
  change (length (repeat 28 12) =? 0)%nat with false. cbv iota.
  rewrite mean_repeat, std_repeat.
  replace (if Rltb 0 28 then 0 / 28 else 1) with 0
    by (destruct (Rltb_spec 0 28); lra).
  replace (py_min 0 1) with 0 by (unfold py_min; rcases).
  replace (py_max 0 (1 - 0)) with 1 by (unfold py_max; rcases).
  unfold classify. 
  replace (Rleb 28 10) with false by (destruct (Rleb_spec 28 10); lra).
  replace (Rleb 28 21) with false by (destruct (Rleb_spec 28 21); lra).
  replace (Rltb 21 28) with true by (destruct (Rltb_spec 21 28); lra).
  replace (Rleb 28 45) with true by (destruct (Rleb_spec 28 45); lra).
  replace (Rltb 0.4 1) with true by (destruct (Rltb_spec 0.4 1); lra).
  replace (Rltb 1 0.3) with false by (destruct (Rltb_spec 1 0.3); lra).
  rewrite andb_false_r. reflexivity.
Qed.

(** ** The trend analyzer *)

Import TrendAnalyzer.

Lemma np_div_num (a b : R) : b <> 0 -> np_div a b = Num (a / b).
Proof.
  intros Hb. unfold np_div.
  destruct (Req_dec_T b 0); [contradiction | reflexivity].
Qed.

(** A quotient taken only under the guard [0 < b] is a real number, and
    the guarded expression is 0 at a zero denominator. *)
Lemma guarded_ratio (a b : R) (k : npfloat -> npfloat) :
  (forall x, exists y, k (Num x) = Num y) ->
  (exists v, (if Rltb 0 b then k (np_div a b) else Num 0) = Num v)
  /\ (b = 0 -> (if Rltb 0 b then k (np_div a b) else Num 0) = Num 0).
Proof.
  intros Hk. destruct (Rltb_spec 0 b) as [Hb | Hb].
  - rewrite np_div_num by lra. split; [apply Hk | lra].
  - split; [now exists 0 | reflexivity].
Qed.

Lemma np_scale_num (c x : R) : exists y, np_scale (Num x) c = Num y.
Proof. now exists (x * c). Qed.

Lemma id_num (x : R) : exists y, (fun v : npfloat => v) (Num x) = Num y.
Proof. now exists x. Qed.

(** What [direction_of] answers on a real growth rate. *)
Lemma direction_of_cases (g : R) :
  (Rabs g < 5 -> direction_of (Num g) = stable)
  /\ (5 < g -> direction_of (Num g) = increasing)
  /\ (g <= -5 -> direction_of (Num g) = decreasing)
  /\ (g = 5 -> direction_of (Num g) = decreasing).
Proof.
  unfold direction_of, np_ltb, np_gtb, np_abs.
  destruct (Rltb_spec (Rabs g) 5) as [Ha | Ha];
    destruct (Rltb_spec 5 g) as [Hg | Hg];
    repeat split; intros H; try reflexivity; try lra;
    exfalso; revert Ha; unfold Rabs; destruct (Rcase_abs g); lra.
Qed.

(** C6 (the code departs from it at a growth rate of exactly 5): on the
    two-point selection [100; 105] the growth rate is 5 percent, which is
    positive and outside the stable band, and the analyzer answers
    [decreasing]: the test for [increasing] is [growth_rate > 5], and every
    rate that is neither stable nor above 5 falls to [decreasing]. *)
Theorem growth_of_exactly_5_is_decreasing :
  let m := calculate_trend_metrics [100; 105] [0%Z; 7%Z] in
  data_points m = 2%nat
  /\ growth_rate_pct m = Num 5
  /\ trend_direction m = decreasing.
Proof.
  assert (Hg : growth_rate [100; 105] = Num 5).
  { unfold growth_rate, first_half_avg, second_half_avg. simpl.
    destruct (Rltb_spec 0 100); [| lra].
    rewrite np_div_num by lra. simpl. f_equal. lra. }
  unfold calculate_trend_metrics. simpl. rewrite Hg.
  repeat split.
  apply direction_of_cases. reflexivity.
Qed.

(** The regression of [linregress] never divides by zero on two or more
    points: the abscissas [0, 1, ...] are not all equal. *)
Lemma combine_same {A : Type} (x : list A) :
  combine x x = map (fun a => (a, a)) x.
Proof. induction x as [| a t IH]; simpl; [reflexivity | now rewrite IH]. Qed.

Lemma cov_arange_pos (n : nat) :
  (2 <= n)%nat -> 0 < cov (arange n) (arange n).
Proof.
  intros Hn. unfold cov. rewrite combine_same, map_map. simpl.
  set (x := arange n). set (m := mean x).
  set (l := map (fun a => (a - m) * (a - m)) x).
  assert (Hl : Forall (Rle 0) l).
  { subst l. apply Forall_map, Forall_forall. intros a _. cbv beta.
    exact (Rle_0_sqr (a - m)). }
  pose proof (mean_nonneg l Hl) as Hge.
  destruct (Req_dec_T (mean l) 0) as [H0 | H0]; [exfalso | lra].
  pose proof (mean_zero_all_zero l Hl H0) as Hall.
  subst l. rewrite Forall_map, Forall_forall in Hall.
  assert (Hin : forall k, (k < n)%nat -> INR k = m).
  { intros k Hk.
    assert (In (INR k) x) as Hx.
    { subst x. unfold arange. apply in_map, in_seq. lia. }
    apply Hall in Hx. nra. }
  pose proof (Hin 0%nat ltac:(lia)) as E0.
  pose proof (Hin 1%nat ltac:(lia)) as E1.
  simpl in E0, E1. lra.
Qed.

(** C8: at the division sites of the trend analyzer and of the threshold
    calculator a zero denominator gives 0 and no quotient leaves the real
    numbers: the volatility [std/avg] (0 when the average is 0), the growth
    rate (0 when the first-half average is 0), the recent-to-historical
    change (0 when the historical average is 0) and the coefficient of
    variation [std/mean] (0 when the mean is 0) are real numbers for every
    input sample, and so is the regression slope. *)
Theorem ratios_defined_and_zero_at_zero_denominator
  (volumes : list R) (dates : list Z)
  (group_df : list Frame.row) (recent_weeks : nat)
  (s : WeeklyMonitoring.sensitivity) :
  let m := calculate_trend_metrics volumes dates in
  let c := compare_recent_to_historical group_df recent_weeks in
  let t := VolumeAnalysis.calculate_thresholds group_df s in
  ((exists v, volatility m = Num v)
   /\ (avg_volume m = 0 -> volatility m = Num 0))
  /\ ((exists g, growth_rate_pct m = Num g)
      /\ (first_half_avg volumes = 0 -> growth_rate_pct m = Num 0))
  /\ ((exists p, change_pct c = Num p)
      /\ (historical_avg c = 0 -> change_pct c = Num 0))
  /\ ((exists v, VolumeAnalysis.cv t = Num v)
      /\ (VolumeAnalysis.mean_of t = 0 -> VolumeAnalysis.cv t = Num 0))
  /\ (exists b, slope m = Num b).
Proof.
  pose proof (guarded_ratio
                (second_half_avg volumes - first_half_avg volumes)
                (first_half_avg volumes)
                (fun x => np_scale x 100) (np_scale_num 100)) as Hgrowth.
  fold (growth_rate volumes) in Hgrowth.
  cbv zeta. split; [| split; [| split; [| split]]].
  - unfold calculate_trend_metrics.
    destruct (length volumes =? 0)%nat.
    + simpl. split; [now exists 0 | reflexivity].
    + destruct (2 <=? length volumes)%nat; simpl;
        apply (guarded_ratio (std volumes) (mean volumes) (fun x => x) id_num).
  - unfold calculate_trend_metrics.
    destruct (length volumes =? 0)%nat.
    + simpl. split; [now exists 0 | reflexivity].
    + destruct (2 <=? length volumes)%nat; simpl.
      * exact Hgrowth.
      * split; [now exists 0 | reflexivity].
  - unfold compare_recent_to_historical.
    destruct (length group_df <? recent_weeks + 4)%nat; simpl.
    + split; [now exists 0 | reflexivity].
    + apply (guarded_ratio _ _ (fun x => np_scale x 100) (np_scale_num 100)).
  - simpl.
    apply (guarded_ratio _ _ (fun x => x) id_num).
  - unfold calculate_trend_metrics.
    destruct (length volumes =? 0)%nat eqn:H0; [now exists 0 |].
    destruct (2 <=? length volumes)%nat eqn:H2; simpl; [| now exists 0].
    apply Nat.leb_le in H2.
    unfold linregress_slope. rewrite np_div_num; [eauto |].
    pose proof (cov_arange_pos (length volumes) H2). lra.
Qed.

Lemma ratios_defined_and_zero_at_zero_denominator_witness :
  volatility (calculate_trend_metrics [0; 0] [0%Z; 7%Z]) = Num 0.
Proof.
  apply (ratios_defined_and_zero_at_zero_denominator
           [0; 0] [0%Z; 7%Z] [] 4 WeeklyMonitoring.medium).
  unfold calculate_trend_metrics, mean, sum. simpl. lra.
Defined.

(** ** Grouping by category *)

Import Frame.

Lemma key_eqb_eq (a b : key) : key_eqb a b = true <-> a = b.
Proof.
  destruct a as [a1 a2], b as [b1 b2]. unfold key_eqb. simpl.
  rewrite andb_true_iff, !String.eqb_eq.
  split; [intros [-> ->]; reflexivity | intros [= -> ->]; auto].
Qed.

Lemma key_eqb_refl (a : key) : key_eqb a a = true.
Proof. now apply key_eqb_eq. Qed.

Lemma key_eqb_neq (a b : key) : a <> b -> key_eqb a b = false.
Proof.
  intros H. destruct (key_eqb a b) eqn:E; [| reflexivity].
  apply key_eqb_eq in E. contradiction.
Qed.

Lemma group_keys_NoDup (df : list row) : NoDup (group_keys df).
Proof.
  unfold group_keys.
  eapply Permutation_NoDup.
  - symmetry. apply sort_by_perm.
  - apply NoDup_nodup.
Qed.

Lemma group_keys_In (df : list row) (k : key) :
  In k (group_keys df) <-> exists r, In r df /\ key_of r = k.
Proof.
  unfold group_keys. split.
  - intros H.
    apply (Permutation_in _ (sort_by_perm key_leb _)) in H.
    apply nodup_In, in_map_iff in H. destruct H as (r & Hk & Hr). eauto.
  - intros (r & Hr & Hk).
    apply (Permutation_in _ (Permutation_sym (sort_by_perm key_leb _))).
    apply nodup_In, in_map_iff. eauto.
Qed.

Lemma rows_of_In (k : key) (df : list row) (r : row) :
  In r (rows_of k df) <-> In r df /\ key_of r = k.
Proof. unfold rows_of. now rewrite filter_In, key_eqb_eq. Qed.

Lemma filter_none {A : Type} (p : A -> bool) (l : list A) :
  (forall a, In a l -> p a = false) -> filter p l = [].
Proof.
  induction l as [| x t IH]; simpl; intros H; [reflexivity |].
  rewrite (H x) by now left. apply IH. intros a Ha. apply H. now right.
Qed.

Section PerCategory.

Import WeeklyMonitoring.

Variable f : key -> list alert.

Hypothesis f_keys : forall k a, In a (f k) -> alert_key a = k.

Lemma alerts_for_own (k : key) : alerts_for k (f k) = f k.
Proof.
  unfold alerts_for. apply forallb_filter_id, forallb_forall.
  intros a Ha. apply key_eqb_eq. now apply f_keys.
Qed.

Lemma alerts_for_other (k k' : key) : k' <> k -> alerts_for k (f k') = [].
Proof.
  intros Hk. unfold alerts_for.
  apply filter_none.
  intros a Ha. apply key_eqb_neq.
  apply f_keys in Ha. congruence.
Qed.

Lemma alerts_for_absent (k : key) (keys : list key) :
  ~ In k keys -> alerts_for k (flat_map f keys) = [].
Proof.
  induction keys as [| k' t IH]; simpl; intros Hk; [reflexivity |].
  unfold alerts_for in *. rewrite filter_app.
  fold (alerts_for k (f k')).
  rewrite alerts_for_other by tauto.
  apply IH. tauto.
Qed.

(** Among the alerts of all the groups, those about [k] are the alerts of
    the group of [k]. *)
Lemma alerts_for_flat_map (k : key) (keys : list key) :
  NoDup keys -> In k keys -> alerts_for k (flat_map f keys) = f k.
Proof.
  induction 1 as [| k' t Hk' Hnd IH]; simpl; [easy |].
  intros [-> | Hin]; unfold alerts_for in *; rewrite filter_app.
  - fold (alerts_for k (f k)). rewrite alerts_for_own.
    fold (alerts_for k (flat_map f t)).
    rewrite alerts_for_absent by assumption.
    apply app_nil_r.
  - assert (k' <> k) by (intros ->; contradiction).
    fold (alerts_for k (f k')). rewrite alerts_for_other by assumption.
    now apply IH.
Qed.

End PerCategory.

(** ** The alert engine *)

Import WeeklyMonitoring.

Lemma check_group_keys (check_date : Z) (s : sensitivity)
  (current_week_data group : list row) (k : key) (a : alert) :
  In a (check_group check_date s current_week_data k group) ->
  alert_key a = k.
Proof.
  unfold check_group.
  destruct (length group <? _)%nat; [easy |].
  destruct (rows_of k current_week_data) as [| first rest].
  - destruct (_ <=? _)%nat; [| easy].
    intros [<- | []]. now destruct k.
  - destruct (_ <? _)%nat; [easy |].
    destruct (Rltb _ _); [| easy].
    intros [<- | []]. now destruct k.
Qed.

Lemma detect_weekly_alerts_unfold (df : list row) (check_date : Z)
  (s : sensitivity) :
  on_date check_date df <> [] ->
  detect_weekly_alerts df check_date s
  = flat_map (fun k => check_group check_date s (on_date check_date df)
                                   k (rows_of k df))
             (group_keys df).
Proof.
  intros Hweek. unfold detect_weekly_alerts, groupby.
  destruct (on_date check_date df) as [| r t]; [contradiction |].
  simpl length. simpl Nat.eqb. cbv iota.
  rewrite flat_map_concat_map, map_map, <- flat_map_concat_map.
  reflexivity.
Qed.

(** When the checked week holds some observation, the alerts about a
    category are those of the loop body run on its group. *)
Lemma alerts_for_category (df : list row) (check_date : Z)
  (s : sensitivity) (k : key) :
  on_date check_date df <> [] ->
  rows_of k df <> [] ->
  alerts_for k (detect_weekly_alerts df check_date s)
  = check_group check_date s (on_date check_date df) k (rows_of k df).
Proof.
  intros Hweek Hk.
  rewrite detect_weekly_alerts_unfold by assumption.
  apply (alerts_for_flat_map
           (fun k => check_group check_date s (on_date check_date df)
                                 k (rows_of k df))).
  - intros k' a. apply check_group_keys.
  - apply group_keys_NoDup.
  - apply group_keys_In.
    destruct (rows_of k df) as [| r t] eqn:E; [contradiction |].
    exists r. apply rows_of_In. rewrite E. now left.
Qed.

Lemma min_weeks_ge_4 (s : sensitivity) :
  (4 <= min_weeks (SENSITIVITY_CONFIGS s))%nat.
Proof. destruct s; simpl; lia. Qed.

Lemma before_length (d : Z) (frame : list row) :
  (length (before d frame) <= length frame)%nat.
Proof. apply filter_length_le. Qed.

(** C1 as amended: when the checked period holds at least one observation
    (of any category), every category with at least [min_weeks]
    observations strictly before the checked period and none in it gets
    exactly one alert, of type NO_DATA and severity CRITICAL, with observed
    count 0 and drop 100, whose threshold and mean are those of
    [calculate_dynamic_threshold] on the prior observations only. *)
Theorem no_data_alert_when_week_has_data
  (df : list row) (check_date : Z) (s : sensitivity) (k : key) :
  on_date check_date df <> [] ->
  rows_of k (on_date check_date df) = [] ->
  (min_weeks (SENSITIVITY_CONFIGS s)
   <= length (before check_date (rows_of k df)))%nat ->
  let t := calculate_dynamic_threshold
             (map volume (before check_date (rows_of k df))) s in
  alerts_for k (detect_weekly_alerts df check_date s)
  = [ {| alert_app := fst k; alert_message_type := snd k;
         alert_week_start_date := check_date;
         current_volume := 0;
         alert_threshold := threshold t;
         mean_volume := mean_vol t;
         recent_4wk_avg := None;
         drop_from_mean_pct := Num 100;
         alert_severity := CRITICAL;
         kind := NO_DATA |} ].
Proof.
  intros Hweek Hnone Hhist t.
  pose proof (min_weeks_ge_4 s) as H4.
  pose proof (before_length check_date (rows_of k df)) as Hlen.
  rewrite alerts_for_category; [| assumption |].
  2: { intros E. rewrite E in Hhist. simpl in Hhist. lia. }
  unfold check_group. rewrite Hnone.
  replace (length (rows_of k df) <? _)%nat with false
    by (symmetry; apply Nat.ltb_ge; lia).
  replace (_ <=? _)%nat with true by (symmetry; apply Nat.leb_le; lia).
  reflexivity.
Qed.

Lemma nth_all_zero (l : list R) (i : nat) :
  Forall (eq 0) l -> nth i l 0 = 0.
Proof.
  intros H. revert i.
  induction H as [| x t Hx _ IH]; intros [| i]; simpl; auto.
Qed.

Lemma percentile_all_zero (a : list R) (q : nat) :
  Forall (eq 0) a -> percentile a q = 0.
Proof.
  intros H. unfold percentile.
  assert (Hs : Forall (eq 0) (sort_by Rleb a)).
  { eapply Permutation_Forall; [| exact H].
    symmetry. apply sort_by_perm. }
  rewrite !nth_all_zero by assumption. lra.
Qed.

(** A sample of non-negative counts whose mean is 0 is all zeros, and its
    threshold is 0. *)
Lemma threshold_zero_at_mean_zero (volumes : list R) (s : sensitivity) :
  Forall (Rle 0) volumes -> mean volumes = 0 ->
  threshold (calculate_dynamic_threshold volumes s) = 0.
Proof.
  intros Hpos Hmean.
  pose proof (mean_zero_all_zero volumes Hpos Hmean) as Hzero.
  pose proof (z_score_pos s) as Hz.
  pose proof (std_nonneg volumes) as Hs.
  cbn -[py_max3 py_max percentile].
  rewrite !percentile_all_zero by assumption. rewrite Hmean.
  assert (0 <= z_score (SENSITIVITY_CONFIGS s) * std volumes) by nra.
  unfold py_max3. rewrite !py_max_Rmax.
  unfold Rmax.
  repeat match goal with
         | |- context [Rle_dec ?a ?b] => destruct (Rle_dec a b); try lra
         end.
Qed.

Lemma breach_mean_pos (volumes : list R) (s : sensitivity) (observed : R) :
  Forall (Rle 0) volumes -> 0 <= observed ->
  observed < threshold (calculate_dynamic_threshold volumes s) ->
  0 < mean_vol (calculate_dynamic_threshold volumes s).
Proof.
  intros Hpos Hobs Hlt.
  pose proof (mean_nonneg volumes Hpos) as Hge.
  destruct (Req_dec_T (mean volumes) 0) as [E | E].
  - rewrite threshold_zero_at_mean_zero in Hlt by assumption. lra.
  - simpl. lra.
Qed.

(** In a list sorted for [lt], the last [n] elements come after all the
    others. *)
Lemma strongly_sorted_app_cross {A : Type} (lt : A -> A -> Prop)
  (l1 l2 : list A) :
  StronglySorted lt (l1 ++ l2) ->
  forall a b, In a l1 -> In b l2 -> lt a b.
Proof.
  induction l1 as [| x t IH]; simpl; intros Hs a b Ha Hb; [easy |].
  inversion Hs as [| ? ? Ht Hx]; subst.
  destruct Ha as [<- | Ha].
  - rewrite Forall_forall in Hx. apply Hx, in_or_app. now right.
  - now apply IH.
Qed.

Lemma tail_is_latest {A : Type} (lt : A -> A -> Prop) (n : nat)
  (l : list A) :
  StronglySorted lt l ->
  forall a b, In a (firstn (length l - n) l) -> In b (tail n l) -> lt a b.
Proof.
  intros Hs. apply strongly_sorted_app_cross.
  unfold tail. now rewrite firstn_skipn.
Qed.

Lemma tail_length {A : Type} (n : nat) (l : list A) :
  (n <= length l)%nat -> length (tail n l) = n.
Proof. intros H. unfold tail. rewrite length_skipn. lia. Qed.

Lemma classify_severity_bands (d : R) :
  (70 <= d -> classify_severity (Num d) = CRITICAL)
  /\ (50 <= d < 70 -> classify_severity (Num d) = HIGH)
  /\ (30 <= d < 50 -> classify_severity (Num d) = MEDIUM)
  /\ (d < 30 -> classify_severity (Num d) = LOW).
Proof.
  unfold classify_severity, np_geb.
  repeat split; intros H; rcases; reflexivity.
Qed.

(** C2: for a category that has an observation in the checked period and
    at least [min_weeks] observations strictly before it, all counts being
    non-negative, an alert is emitted if and only if the observed count is
    below the final threshold computed from the prior observations.  The
    alert then carries [drop_pct = (mean - observed) / mean * 100], the
    severity CRITICAL, HIGH, MEDIUM or LOW by the bands 70, 50, 30, and the
    average of the last four prior observations, which are the four latest
    ones when the category's rows are in ascending date order.  The mean of
    a breached threshold is positive, so the quotient is a real number and
    the case [mean = 0] never reaches an alert. *)
Theorem volume_drop_alert
  (df : list row) (check_date : Z) (s : sensitivity) (k : key)
  (first : row) (rest : list row) :
  rows_of k (on_date check_date df) = first :: rest ->
  (min_weeks (SENSITIVITY_CONFIGS s)
   <= length (before check_date (rows_of k df)))%nat ->
  Forall (fun r => 0 <= volume r) df ->
  let history := before check_date (rows_of k df) in
  let t := calculate_dynamic_threshold (map volume history) s in
  let observed := volume first in
  let drop_pct := (mean_vol t - observed) / mean_vol t * 100 in
  let alerts := alerts_for k (detect_weekly_alerts df check_date s) in
  (observed < threshold t ->
   0 < mean_vol t
   /\ alerts
      = [ {| alert_app := fst k; alert_message_type := snd k;
             alert_week_start_date := check_date;
             current_volume := observed;
             alert_threshold := threshold t;
             mean_volume := mean_vol t;
             recent_4wk_avg := Some (mean (map volume (tail 4 history)));
             drop_from_mean_pct := Num drop_pct;
             alert_severity := classify_severity (Num drop_pct);
             kind := VOLUME_DROP |} ]
   /\ (70 <= drop_pct -> classify_severity (Num drop_pct) = CRITICAL)
   /\ (50 <= drop_pct < 70 -> classify_severity (Num drop_pct) = HIGH)
   /\ (30 <= drop_pct < 50 -> classify_severity (Num drop_pct) = MEDIUM)
   /\ (drop_pct < 30 -> classify_severity (Num drop_pct) = LOW))
  /\ (~ observed < threshold t -> alerts = [])
  /\ length (tail 4 history) = 4%nat
  /\ (StronglySorted
        (fun a b => (week_start_date a < week_start_date b)%Z) history ->
      forall older recent,
        In older (firstn (length history - 4) history) ->
        In recent (tail 4 history) ->
        (week_start_date older < week_start_date recent)%Z).
Proof.
  intros Hcur Hhist Hpos history t observed drop_pct alerts.
  cut ((observed < threshold t ->
        0 < mean_vol t
        /\ alerts
           = [ {| alert_app := fst k; alert_message_type := snd k;
                  alert_week_start_date := check_date;
                  current_volume := observed;
                  alert_threshold := threshold t;
                  mean_volume := mean_vol t;
                  recent_4wk_avg :=
                    Some (mean (map volume (tail 4 history)));
                  drop_from_mean_pct := Num drop_pct;
                  alert_severity := classify_severity (Num drop_pct);
                  kind := VOLUME_DROP |} ]
        /\ (70 <= drop_pct -> classify_severity (Num drop_pct) = CRITICAL)
        /\ (50 <= drop_pct < 70 -> classify_severity (Num drop_pct) = HIGH)
        /\ (30 <= drop_pct < 50
            -> classify_severity (Num drop_pct) = MEDIUM)
        /\ (drop_pct < 30 -> classify_severity (Num drop_pct) = LOW))
       /\ (~ observed < threshold t -> alerts = [])).
  { intros [H1 H2]. split; [exact H1 | split; [exact H2 | split]].
    - apply tail_length. pose proof (min_weeks_ge_4 s). fold history in Hhist.
      lia.
    - intros Hsorted older recent.
      exact (tail_is_latest _ 4 history Hsorted older recent). }
  pose proof (min_weeks_ge_4 s) as H4.
  pose proof (before_length check_date (rows_of k df)) as Hlen.
  assert (Hfirst : In first df /\ key_of first = k).
  { assert (In first (rows_of k (on_date check_date df))) as Hin
        by (rewrite Hcur; now left).
    apply rows_of_In in Hin. destruct Hin as [Hin Hk].
    unfold on_date in Hin. apply filter_In in Hin. tauto. }
  assert (Hweek : on_date check_date df <> []).
  { intros E. rewrite E in Hcur. discriminate. }
  assert (Hgroup : rows_of k df <> []).
  { intros E. fold history in Hhist. subst history.
    rewrite E in Hhist. simpl in Hhist. lia. }
  assert (Halerts : alerts
                    = check_group check_date s (on_date check_date df)
                                  k (rows_of k df))
    by (now apply alerts_for_category).
  assert (Hvols : Forall (Rle 0) (map volume history)).
  { apply Forall_map, Forall_forall. intros r Hr.
    unfold history, before in Hr. apply filter_In in Hr.
    destruct Hr as [Hr _]. apply rows_of_In in Hr.
    rewrite Forall_forall in Hpos. apply Hpos. tauto. }
  assert (Hobs : 0 <= observed).
  { rewrite Forall_forall in Hpos. apply Hpos. tauto. }
  rewrite Halerts. unfold check_group. rewrite Hcur.
  replace (length (rows_of k df) <? _)%nat with false
    by (symmetry; apply Nat.ltb_ge; lia).
  replace (length (before check_date (rows_of k df)) <? _)%nat with false
    by (symmetry; apply Nat.ltb_ge; exact Hhist).
  fold history. fold t. fold observed.
  destruct (Rltb_spec observed (threshold t)) as [Hlt | Hge].
  - split; [intros _ | contradiction].
    pose proof (breach_mean_pos _ s observed Hvols Hobs Hlt) as Hmean.
    fold t in Hmean.
    split; [exact Hmean |].
    split; [| apply classify_severity_bands].
    rewrite np_div_num by lra. reflexivity.
  - split; [contradiction | reflexivity].
Qed.

(** C1 fails as stated: a category with six observations before day 42
    and none on day 42 gets no alert from the medium configuration (whose
    [min_weeks] is 6) when no category at all has an observation on day 42,
    because the engine returns an empty table for a week without rows. *)
Lemma no_alert_when_checked_week_is_empty :
  (min_weeks (SENSITIVITY_CONFIGS medium)
   <= length (before 42 (rows_of steady_key steady_history)))%nat
  /\ rows_of steady_key (on_date 42 steady_history) = []
  /\ detect_weekly_alerts steady_history 42 medium = []
  /\ ~ (exists a,
          alerts_for steady_key
                     (detect_weekly_alerts steady_history 42 medium) = [a]
          /\ kind a = NO_DATA).
Proof.
  split; [simpl; lia | split; [reflexivity | split; [reflexivity |]]].
  intros (a & Ha & _). discriminate Ha.
Qed.

Lemma no_data_alert_when_week_has_data_witness :
  alerts_for steady_key
             (detect_weekly_alerts history_and_other_category 42 medium)
  = [ {| alert_app := "APP_01"; alert_message_type := "MT103";
         alert_week_start_date := 42;
         current_volume := 0;
         alert_threshold :=
           threshold (calculate_dynamic_threshold (repeat 100 6) medium);
         mean_volume :=
           mean_vol (calculate_dynamic_threshold (repeat 100 6) medium);
         recent_4wk_avg := None;
         drop_from_mean_pct := Num 100;
         alert_severity := CRITICAL;
         kind := NO_DATA |} ].
Proof.
  apply (no_data_alert_when_week_has_data
           history_and_other_category 42 medium steady_key).
  - simpl. discriminate.
  - reflexivity.
  - simpl. lia.
Defined.

Lemma steady_threshold :
  mean_vol (calculate_dynamic_threshold (repeat 100 6) medium) = 100
  /\ 100 <= threshold (calculate_dynamic_threshold (repeat 100 6) medium).
Proof.
  cbn -[py_max3 py_max percentile mean std repeat].
  rewrite mean_repeat, std_repeat. split; [reflexivity |].
  unfold py_max3.
  eapply Rle_trans; [| apply py_max_l].
  eapply Rle_trans; [| apply py_max_l].
  eapply Rle_trans; [| apply py_max_r]. lra.
Qed.

Lemma volume_drop_alert_witness :
  exists a,
    alerts_for steady_key
               (detect_weekly_alerts history_and_drop 42 medium) = [a]
    /\ kind a = VOLUME_DROP
    /\ current_volume a = 10
    /\ mean_volume a = 100
    /\ drop_from_mean_pct a = Num ((100 - 10) / 100 * 100)
    /\ alert_severity a = CRITICAL.
Proof.
  pose proof steady_threshold as [Hmean Hthr].
  destruct (volume_drop_alert
              history_and_drop 42 medium steady_key
              {| app := "APP_01"; message_type := "MT103";
                 week_start_date := 42; volume := 10 |} [])
    as [Hbreach _].
  - reflexivity.
  - simpl. lia.
  - repeat constructor; simpl; lra.
  - change (map volume (before 42 (rows_of steady_key history_and_drop)))
      with (repeat 100 6) in Hbreach.
    cbv zeta in Hbreach. rewrite Hmean in Hbreach.
    assert (Hlt : 10 < threshold
                         (calculate_dynamic_threshold (repeat 100 6) medium))
      by lra.
    destruct Hbreach as (_ & Halerts & Hcrit & _); [exact Hlt |].
    eexists. split; [exact Halerts |].
    repeat split. apply Hcrit. cbn [volume]. lra.
Defined.

(** * Further properties of the code *)

(** ** The alert engine, alert by alert *)

(** What an alert of the loop body says about its group. *)
Lemma check_group_inv (check_date : Z) (s : sensitivity)
  (current_week_data group : list row) (k : key) (a : alert) :
  In a (check_group check_date s current_week_data k group) ->
  let history := before check_date group in
  let t := calculate_dynamic_threshold (map volume history) s in
  (min_weeks (SENSITIVITY_CONFIGS s) <= length history)%nat
  /\ alert_key a = k
  /\ alert_week_start_date a = check_date
  /\ alert_threshold a = threshold t
  /\ mean_volume a = mean_vol t
  /\ ((kind a = NO_DATA
       /\ rows_of k current_week_data = []
       /\ current_volume a = 0
       /\ drop_from_mean_pct a = Num 100
       /\ alert_severity a = CRITICAL
       /\ recent_4wk_avg a = None)
      \/ (kind a = VOLUME_DROP
          /\ (exists first rest,
                 rows_of k current_week_data = first :: rest
                 /\ current_volume a = volume first)
          /\ current_volume a < threshold t
          /\ drop_from_mean_pct a
             = np_scale (np_div (mean_vol t - current_volume a)
                                (mean_vol t)) 100
          /\ alert_severity a = classify_severity (drop_from_mean_pct a)
          /\ recent_4wk_avg a
             = Some (mean (map volume (tail 4 history))))).
Proof.
  unfold check_group.
  destruct (length group <? _)%nat; [easy |].
  destruct (rows_of k current_week_data) as [| first rest].
  - destruct (_ <=? _)%nat eqn:Hlen; [| easy].
    apply Nat.leb_le in Hlen.
    intros [<- | []]. cbn -[calculate_dynamic_threshold].
    repeat split; try assumption; [now destruct k |].
    left. repeat split.
  - destruct (_ <? _)%nat eqn:Hlen; [easy |].
    apply Nat.ltb_ge in Hlen.
    destruct (Rltb_spec (volume first)
                (threshold (calculate_dynamic_threshold
                              (map volume (before check_date group)) s)))
      as [Hlt | Hge]; [| easy].
    intros [<- | []]. cbn -[calculate_dynamic_threshold tail].
    repeat split; try assumption; [now destruct k |].
    right. repeat split; try assumption. now exists first, rest.
Qed.

(** An alert of the engine comes from the loop body of its category. *)
Lemma detect_weekly_alerts_inv (df : list row) (check_date : Z)
  (s : sensitivity) (a : alert) :
  In a (detect_weekly_alerts df check_date s) ->
  on_date check_date df <> []
  /\ In a (check_group check_date s (on_date check_date df)
                       (alert_key a) (rows_of (alert_key a) df)).
Proof.
  intros Ha.
  assert (Hweek : on_date check_date df <> []).
  { intros E. unfold detect_weekly_alerts in Ha. rewrite E in Ha.
    exact Ha. }
  split; [exact Hweek |].
  rewrite detect_weekly_alerts_unfold in Ha by assumption.
  apply in_flat_map in Ha. destruct Ha as (k & _ & Ha).
  now rewrite (check_group_keys _ _ _ _ _ _ Ha).
Qed.

(** X1: a category with fewer than [min_weeks] observations strictly before
    the checked date gets no alert of either type, whatever the checked
    week holds. *)
Theorem insufficient_history_never_alerts
  (df : list row) (check_date : Z) (s : sensitivity) (k : key) :
  (length (before check_date (rows_of k df))
   < min_weeks (SENSITIVITY_CONFIGS s))%nat ->
  alerts_for k (detect_weekly_alerts df check_date s) = [].
Proof.
  intros Hshort. unfold alerts_for. apply filter_none.
  intros a Ha.
  destruct (key_eqb (alert_key a) k) eqn:E; [| reflexivity].
  apply key_eqb_eq in E. exfalso.
  apply detect_weekly_alerts_inv in Ha. destruct Ha as [_ Ha].
  apply check_group_inv in Ha. destruct Ha as (Hlen & _).
  rewrite E in Hlen. lia.
Qed.

Lemma insufficient_history_never_alerts_witness :
  alerts_for steady_key (detect_weekly_alerts history_and_drop 42 low) = [].
Proof.
  apply (insufficient_history_never_alerts history_and_drop 42 low steady_key).
  simpl. lia.
Defined.

Lemma NoDup_map_flat_map {A B K : Type} (key_of : B -> K)
  (f : A -> list B) (key_in : A -> K) (l : list A) :
  (forall x b, In b (f x) -> key_of b = key_in x) ->
  (forall x, (length (f x) <= 1)%nat) ->
  NoDup (map key_in l) ->
  NoDup (map key_of (flat_map f l)).
Proof.
  intros Hkey Hone. induction l as [| x t IH]; simpl; intros Hnd.
  - constructor.
  - inversion Hnd as [| ? ? Hx Ht]; subst.
    rewrite map_app.
    pose proof (Hone x) as Hox. pose proof (Hkey x) as Hkx.
    destruct (f x) as [| b [| b' r]]; simpl in *; [auto | | lia].
    constructor; [| auto].
    intros Hin. apply in_map_iff in Hin. destruct Hin as (b' & Hb' & Hin).
    apply in_flat_map in Hin. destruct Hin as (y & Hy & Hin).
    apply Hx. apply in_map_iff. exists y. split; [| exact Hy].
    rewrite <- (Hkx b (or_introl eq_refl)), <- Hb'.
    symmetry. eapply Hkey. exact Hin.
Qed.

Lemma check_group_length (check_date : Z) (s : sensitivity)
  (current_week_data group : list row) (k : key) :
  (length (check_group check_date s current_week_data k group) <= 1)%nat.
Proof.
  unfold check_group.
  repeat match goal with
         | |- context [if ?c then _ else _] => destruct c
         | |- context [match ?l with [] => _ | _ :: _ => _ end] => destruct l
         end; simpl; lia.
Qed.

(** X2: the alert table holds at most one alert per category, every alert
    is dated at the checked date, and there are no more alerts than
    categories in the frame. *)
Theorem one_alert_per_category
  (df : list row) (check_date : Z) (s : sensitivity) :
  let alerts := detect_weekly_alerts df check_date s in
  NoDup (map alert_key alerts)
  /\ Forall (fun a => alert_week_start_date a = check_date) alerts
  /\ (length alerts <= length (group_keys df))%nat.
Proof.
  cbv zeta. split; [| split].
  - destruct (on_date check_date df) as [| r t] eqn:Hweek.
    + unfold detect_weekly_alerts. rewrite Hweek. constructor.
    + rewrite detect_weekly_alerts_unfold by (rewrite Hweek; discriminate).
      apply (NoDup_map_flat_map alert_key _ (fun k => k)).
      * intros k a. apply check_group_keys.
      * intros k. apply check_group_length.
      * rewrite map_id. apply group_keys_NoDup.
  - apply Forall_forall. intros a Ha.
    apply detect_weekly_alerts_inv in Ha. destruct Ha as [_ Ha].
    apply check_group_inv in Ha. tauto.
  - destruct (on_date check_date df) as [| r t] eqn:Hweek.
    + unfold detect_weekly_alerts. rewrite Hweek. simpl. lia.
    + rewrite detect_weekly_alerts_unfold by (rewrite Hweek; discriminate).
      induction (group_keys df) as [| k ks IH]; simpl; [lia |].
      rewrite length_app.
      pose proof (check_group_length check_date s (on_date check_date df)
                                         (rows_of k df) k).
      lia.
Qed.

Lemma rows_of_on_date_In (k : key) (d : Z) (df : list row) (r : row) :
  In r (rows_of k (on_date d df))
  <-> In r df /\ key_of r = k /\ week_start_date r = d.
Proof.
  rewrite rows_of_In. unfold on_date. rewrite filter_In, Z.eqb_eq. tauto.
Qed.

(** X3: every alert of the table is justified by the frame.  Its category
    has at least [min_weeks] observations strictly before the checked date,
    and its threshold and mean are those computed from exactly these
    observations.  A VOLUME_DROP alert reports the count of an observation
    of its category at the checked date, and that count is strictly below
    the threshold.  A NO_DATA alert is raised only for a category with no
    observation at the checked date, with count 0 and severity CRITICAL. *)
Theorem alerts_are_justified
  (df : list row) (check_date : Z) (s : sensitivity) (a : alert) :
  In a (detect_weekly_alerts df check_date s) ->
  let history := before check_date (rows_of (alert_key a) df) in
  let t := calculate_dynamic_threshold (map volume history) s in
  (min_weeks (SENSITIVITY_CONFIGS s) <= length history)%nat
  /\ alert_threshold a = threshold t
  /\ mean_volume a = mean_vol t
  /\ match kind a with
     | VOLUME_DROP =>
         (exists r, In r df /\ key_of r = alert_key a
                    /\ week_start_date r = check_date
                    /\ volume r = current_volume a)
         /\ current_volume a < alert_threshold a
     | NO_DATA =>
         (forall r, In r df -> key_of r = alert_key a ->
                    week_start_date r <> check_date)
         /\ current_volume a = 0
         /\ alert_severity a = CRITICAL
     end.
Proof.
  intros Ha history t.
  apply detect_weekly_alerts_inv in Ha. destruct Ha as [_ Ha].
  apply check_group_inv in Ha.
  fold history in Ha. fold t in Ha.
  destruct Ha as (Hlen & _ & _ & Hthr & Hmean & Hkind).
  repeat split; try assumption.
  destruct Hkind as [(Hk & Hnone & Hvol & _ & Hsev & _)
                    | (Hk & (first & rest & Hrows & Hvol) & Hlt & _)];
    rewrite Hk.
  - repeat split; try assumption.
    intros r Hr Hkey Hdate.
    assert (In r (rows_of (alert_key a) (on_date check_date df))) as Hin
        by (apply rows_of_on_date_In; tauto).
    rewrite Hnone in Hin. exact Hin.
  - split; [| now rewrite Hthr].
    assert (In first (rows_of (alert_key a) (on_date check_date df))) as Hin
        by (rewrite Hrows; now left).
    apply rows_of_on_date_In in Hin.
    exists first. intuition congruence.
Qed.

Lemma steady_no_data_alert_In :
  In steady_no_data_alert
     (detect_weekly_alerts history_and_other_category 42 medium).
Proof.
  assert (H : alerts_for steady_key
                (detect_weekly_alerts history_and_other_category 42 medium)
              = [steady_no_data_alert]).
  { rewrite alerts_for_category by (simpl; discriminate). reflexivity. }
  assert (Hin : In steady_no_data_alert
                   (alerts_for steady_key
                      (detect_weekly_alerts
                         history_and_other_category 42 medium)))
    by (rewrite H; now left).
  unfold alerts_for in Hin. apply filter_In in Hin. tauto.
Qed.

Lemma alerts_are_justified_witness :
  (min_weeks (SENSITIVITY_CONFIGS medium)
   <= length (before 42 (rows_of (alert_key steady_no_data_alert)
                                 history_and_other_category)))%nat.
Proof.
  apply (alerts_are_justified history_and_other_category 42 medium
           steady_no_data_alert steady_no_data_alert_In).
Defined.

(** X4: on non-negative counts the drop percentage of every alert is a
    real number (never [inf] or [nan]) and at most 100. *)
Theorem drop_pct_at_most_100
  (df : list row) (check_date : Z) (s : sensitivity) (a : alert) :
  Forall (fun r => 0 <= volume r) df ->
  In a (detect_weekly_alerts df check_date s) ->
  exists x, drop_from_mean_pct a = Num x /\ x <= 100.
Proof.
  intros Hpos Ha.
  apply detect_weekly_alerts_inv in Ha. destruct Ha as [_ Ha].
  apply check_group_inv in Ha.
  destruct Ha as (_ & _ & _ & _ & _ & Hkind).
  destruct Hkind as [(_ & _ & _ & Hdrop & _)
                    | (_ & (first & rest & Hrows & Hvol) & Hlt & Hdrop & _)].
  - exists 100. split; [assumption | lra].
  - set (history := before check_date (rows_of (alert_key a) df)) in *.
    set (t := calculate_dynamic_threshold (map volume history) s) in *.
    assert (Hfirst : 0 <= volume first).
    { assert (In first (rows_of (alert_key a) (on_date check_date df)))
        as Hin by (rewrite Hrows; now left).
      apply rows_of_on_date_In in Hin.
      rewrite Forall_forall in Hpos. apply Hpos. tauto. }
    assert (Hvols : Forall (Rle 0) (map volume history)).
    { apply Forall_map, Forall_forall. intros r Hr.
      unfold history, before in Hr. apply filter_In in Hr.
      destruct Hr as [Hr _]. apply rows_of_In in Hr.
      rewrite Forall_forall in Hpos. apply Hpos. tauto. }
    rewrite Hvol in *.
    pose proof (breach_mean_pos _ s _ Hvols Hfirst Hlt) as Hmean.
    fold t in Hmean.
    rewrite Hdrop, np_div_num by lra. cbn [np_scale].
    eexists. split; [reflexivity |].
    assert ((mean_vol t - volume first) / mean_vol t <= 1).
    { apply Rmult_le_reg_r with (r := mean_vol t); [assumption |].
      unfold Rdiv. rewrite Rmult_assoc, Rinv_l by lra. lra. }
    lra.
Qed.

Lemma drop_pct_at_most_100_witness :
  exists x, drop_from_mean_pct steady_no_data_alert = Num x /\ x <= 100.
Proof.
  apply (drop_pct_at_most_100 history_and_other_category 42 medium
           steady_no_data_alert).
  - repeat constructor; simpl; lra.
  - exact steady_no_data_alert_In.
Defined.

(** ** Percentiles and the bounds of the threshold *)

Lemma Rleb_true_le (x y : R) : Rleb x y = true <-> x <= y.
Proof. destruct (Rleb_spec x y); split; auto; discriminate. Qed.

Lemma sorted_sample (a : list R) : StronglySorted Rle (sort_by Rleb a).
Proof.
  assert (H : StronglySorted (fun x y => Rleb x y = true) (sort_by Rleb a)).
  { apply Sorted_StronglySorted.
    - intros x y z. rewrite !Rleb_true_le. lra.
    - apply sort_by_sorted, Rleb_total. }
  induction H as [| x l Hs IH Hx]; constructor; [exact IH |].
  eapply Forall_impl; [| exact Hx]. intros y. apply Rleb_true_le.
Qed.

Lemma sorted_nth_le (l : list R) (i j : nat) :
  StronglySorted Rle l -> (i <= j)%nat -> (j < length l)%nat ->
  nth i l 0 <= nth j l 0.
Proof.
  intros Hs. revert i j.
  induction Hs as [| x l Hs IH Hx]; intros i j Hij Hj; simpl in Hj; [lia |].
  destruct i as [| i], j as [| j]; simpl; try lia.
  - lra.
  - rewrite Forall_forall in Hx. apply Hx, nth_In. lia.
  - apply IH; lia.
Qed.

Lemma fold_left_Rmin_acc (t : list R) (y : R) : fold_left Rmin t y <= y.
Proof.
  revert y. induction t as [| z t IH]; intros y; simpl; [lra |].
  eapply Rle_trans; [apply IH | apply Rmin_l].
Qed.

Lemma fold_left_Rmin_le (t : list R) (y x : R) :
  In x t -> fold_left Rmin t y <= x.
Proof.
  revert y. induction t as [| z t IH]; intros y; simpl; [easy |].
  intros [-> | Hin].
  - eapply Rle_trans; [apply fold_left_Rmin_acc | apply Rmin_r].
  - now apply IH.
Qed.

Lemma fold_left_Rmin_In (t : list R) (y : R) :
  In (fold_left Rmin t y) (y :: t).
Proof.
  revert y. induction t as [| z t IH]; intros y; simpl; [now left |].
  destruct (IH (Rmin y z)) as [E | Hin].
  - rewrite <- E. apply Rmin_case; auto.
  - auto.
Qed.

Lemma fold_left_Rmax_acc (t : list R) (y : R) : y <= fold_left Rmax t y.
Proof.
  revert y. induction t as [| z t IH]; intros y; simpl; [lra |].
  eapply Rle_trans; [apply Rmax_l | apply IH].
Qed.

Lemma fold_left_Rmax_le (t : list R) (y x : R) :
  In x t -> x <= fold_left Rmax t y.
Proof.
  revert y. induction t as [| z t IH]; intros y; simpl; [easy |].
  intros [-> | Hin].
  - eapply Rle_trans; [apply Rmax_r | apply fold_left_Rmax_acc].
  - now apply IH.
Qed.

Lemma fold_left_Rmax_In (t : list R) (y : R) :
  In (fold_left Rmax t y) (y :: t).
Proof.
  revert y. induction t as [| z t IH]; intros y; simpl; [now left |].
  destruct (IH (Rmax y z)) as [E | Hin].
  - rewrite <- E. apply Rmax_case; auto.
  - auto.
Qed.

(** [np.min] is the least and [np.max] the greatest element. *)
Lemma np_min_le (a : list R) (x : R) : In x a -> np_min a <= x.
Proof.
  destruct a as [| y t]; [easy |]. simpl. intros [-> | Hin].
  - apply fold_left_Rmin_acc.
  - now apply fold_left_Rmin_le.
Qed.

Lemma np_max_ge (a : list R) (x : R) : In x a -> x <= np_max a.
Proof.
  destruct a as [| y t]; [easy |]. simpl. intros [-> | Hin].
  - apply fold_left_Rmax_acc.
  - now apply fold_left_Rmax_le.
Qed.

Lemma np_min_In (a : list R) : a <> [] -> In (np_min a) a.
Proof. destruct a as [| y t]; [easy |]. intros _. apply fold_left_Rmin_In. Qed.

Lemma np_max_In (a : list R) : a <> [] -> In (np_max a) a.
Proof. destruct a as [| y t]; [easy |]. intros _. apply fold_left_Rmax_In. Qed.

(** The two neighbours between which [percentile] interpolates. *)
Lemma percentile_between (a : list R) (q : nat) :
  a <> [] -> (q <= 100)%nat ->
  let s := sort_by Rleb a in
  let lo := (q * (length a - 1) / 100)%nat in
  let hi := Nat.min (lo + 1) (length a - 1) in
  (lo <= hi)%nat /\ (hi < length a)%nat
  /\ nth lo s 0 <= percentile a q <= nth hi s 0.
Proof.
  intros Ha Hq s lo hi.
  assert (Hn : (1 <= length a)%nat) by (destruct a; [easy | simpl; lia]).
  assert (Hlo : (lo <= length a - 1)%nat).
  { subst lo. apply Nat.Div0.div_le_upper_bound. nia. }
  assert (Hlohi : (lo <= hi)%nat) by (subst hi; lia).
  assert (Hhi : (hi < length a)%nat) by (subst hi; lia).
  split; [exact Hlohi | split; [exact Hhi |]].
  pose proof (sorted_nth_le s lo hi (sorted_sample a) Hlohi
                ltac:(unfold s; rewrite sort_by_length; exact Hhi)) as Hle.
  unfold percentile. fold s. fold lo. fold hi.
  set (m := (q * (length a - 1) mod 100)%nat).
  assert (Hm : (m < 100)%nat) by (apply Nat.mod_upper_bound; lia).
  assert (Hg : 0 <= INR m / 100 <= 1).
  { pose proof (pos_INR m). apply lt_INR in Hm. simpl in Hm.
    change (INR 100) with (IZR 100) in Hm.
    split.
    - apply div_nonneg; lra.
    - apply Rmult_le_reg_r with (r := 100); [lra |].
      unfold Rdiv. rewrite Rmult_assoc, Rinv_l by lra. lra. }
  set (g := INR m / 100) in *.
  nra.
Qed.

Lemma sorted_sample_In (a : list R) (i : nat) :
  (i < length a)%nat -> In (nth i (sort_by Rleb a) 0) a.
Proof.
  intros Hi. apply (Permutation_in _ (sort_by_perm Rleb a)).
  apply nth_In. now rewrite sort_by_length.
Qed.

(** A percentile lies between the least and the greatest element. *)
Lemma percentile_bounds (a : list R) (q : nat) :
  a <> [] -> (q <= 100)%nat ->
  np_min a <= percentile a q <= np_max a.
Proof.
  intros Ha Hq.
  destruct (percentile_between a q Ha Hq) as (Hlohi & Hhi & Hlo & Hup).
  split.
  - eapply Rle_trans; [| exact Hlo]. apply np_min_le, sorted_sample_In. lia.
  - eapply Rle_trans; [exact Hup |]. apply np_max_ge, sorted_sample_In. lia.
Qed.

(** [np.percentile] grows with the percentage. *)
Lemma percentile_monotone (a : list R) (q q' : nat) :
  a <> [] -> (q <= q')%nat -> (q' <= 100)%nat ->
  percentile a q <= percentile a q'.
Proof.
  intros Ha Hqq Hq'.
  destruct (percentile_between a q Ha ltac:(lia)) as (Hlohi & Hhi & Hlo & Hup).
  destruct (percentile_between a q' Ha Hq')
    as (Hlohi' & Hhi' & Hlo' & Hup').
  set (n := length a) in *.
  set (p := (q * (n - 1))%nat) in *. set (p' := (q' * (n - 1))%nat) in *.
  assert (Hp : (p <= p')%nat) by (subst p p'; nia).
  assert (Hdiv : (p / 100 <= p' / 100)%nat)
    by (apply Nat.Div0.div_le_mono; exact Hp).
  destruct (Nat.eq_dec (p / 100) (p' / 100)) as [E | E].
  - (* same interval: the weight grows *)
    unfold percentile. fold n. fold p. fold p'. rewrite <- E.
    set (lo := (p / 100)%nat) in *.
    set (hi := Nat.min (lo + 1) (n - 1)) in *.
    assert (Hs : nth lo (sort_by Rleb a) 0 <= nth hi (sort_by Rleb a) 0).
    { apply sorted_nth_le; [apply sorted_sample | lia |].
      rewrite sort_by_length. exact Hhi. }
    assert (Hmod : (p mod 100 <= p' mod 100)%nat).
    { pose proof (Nat.div_mod_eq p 100). pose proof (Nat.div_mod_eq p' 100).
      fold lo in H. rewrite <- E in H0. fold lo in H0. lia. }
    apply le_INR in Hmod.
    assert (INR (p mod 100) / 100 <= INR (p' mod 100) / 100) by lra.
    nra.
  - (* a later interval *)
    eapply Rle_trans; [exact Hup |].
    eapply Rle_trans; [| exact Hlo'].
    apply sorted_nth_le; [apply sorted_sample | |].
    + fold p. fold p'. lia.
    + rewrite sort_by_length. fold p'. fold n. lia.
Qed.

Lemma py_max_mono (a b a' b' : R) :
  a <= a' -> b <= b' -> py_max a b <= py_max a' b'.
Proof.
  intros Ha Hb. rewrite !py_max_Rmax.
  apply Rmax_lub.
  - eapply Rle_trans; [exact Ha | apply Rmax_l].
  - eapply Rle_trans; [exact Hb | apply Rmax_r].
Qed.

Lemma py_max3_mono (a b c a' b' c' : R) :
  a <= a' -> b <= b' -> c <= c' -> py_max3 a b c <= py_max3 a' b' c'.
Proof. intros. unfold py_max3. now repeat apply py_max_mono. Qed.

Lemma py_max3_lub (a b c m : R) :
  a <= m -> b <= m -> c <= m -> py_max3 a b c <= m.
Proof.
  intros. unfold py_max3. rewrite !py_max_Rmax. now repeat apply Rmax_lub.
Qed.

Lemma py_max3_mid (a b c : R) : b <= py_max3 a b c.
Proof.
  unfold py_max3.
  eapply Rle_trans; [apply (py_max_r a b) | apply py_max_l].
Qed.

Lemma sum_le_bound (l : list R) (m : R) :
  (forall x, In x l -> x <= m) -> sum l <= INR (length l) * m.
Proof.
  induction l as [| x t IH]; intros H.
  - unfold sum. simpl. lra.
  - change (sum (x :: t)) with (x + sum t).
    change (length (x :: t)) with (S (length t)). rewrite S_INR.
    pose proof (H x (or_introl eq_refl)).
    pose proof (IH (fun y Hy => H y (or_intror Hy))). lra.
Qed.

Lemma mean_le_max (l : list R) : l <> [] -> mean l <= np_max l.
Proof.
  intros Hl. unfold mean.
  pose proof (INR_length_pos l Hl) as Hn.
  pose proof (sum_le_bound l (np_max l) (np_max_ge l)) as Hs.
  apply Rmult_le_reg_r with (r := INR (length l)); [assumption |].
  unfold Rdiv. rewrite Rmult_assoc, Rinv_l by lra. lra.
Qed.

Lemma percentile_q_le_100 (s : sensitivity) :
  (percentile_q (SENSITIVITY_CONFIGS s) <= 100)%nat.
Proof. destruct s; simpl; lia. Qed.

Lemma threshold_bounds (volumes : list R) (s : sensitivity) :
  volumes <> [] ->
  np_min volumes <= threshold (calculate_dynamic_threshold volumes s)
  /\ (Forall (Rle 0) volumes ->
      threshold (calculate_dynamic_threshold volumes s) <= np_max volumes).
Proof.
  intros Hne.
  pose proof (percentile_q_le_100 s) as Hq.
  cbn -[py_max3 py_max percentile].
  split.
  - eapply Rle_trans; [| apply py_max3_mid].
    now apply percentile_bounds.
  - intros Hpos.
    assert (H0 : 0 <= np_max volumes).
    { rewrite Forall_forall in Hpos. apply Hpos. now apply np_max_In. }
    pose proof (mean_le_max volumes Hne) as Hmean.
    pose proof (std_nonneg volumes) as Hstd.
    pose proof (z_score_pos s) as Hz.
    pose proof (percentile_monotone volumes 25 75 Hne ltac:(lia) ltac:(lia))
      as Hiqr.
    pose proof (percentile_bounds volumes 25 Hne ltac:(lia)) as [_ H25].
    apply py_max3_lub.
    + rewrite py_max_Rmax. apply Rmax_lub; [assumption | nra].
    + now apply percentile_bounds.
    + rewrite py_max_Rmax. apply Rmax_lub; [assumption | lra].
Qed.

(** X5: the threshold of a non-empty sample is at least the smallest count
    of the sample and, for non-negative counts, at most the largest. *)
Theorem threshold_between_min_and_max (volumes : list R) (s : sensitivity) :
  volumes <> [] ->
  np_min volumes <= threshold (calculate_dynamic_threshold volumes s)
  /\ (Forall (Rle 0) volumes ->
      threshold (calculate_dynamic_threshold volumes s) <= np_max volumes).
Proof. apply threshold_bounds. Qed.

Lemma threshold_between_min_and_max_witness :
  np_min six_counts
  <= threshold (calculate_dynamic_threshold six_counts medium).
Proof.
  apply (threshold_between_min_and_max six_counts medium).
  discriminate.
Defined.

Lemma threshold_sensitivity_order (volumes : list R) :
  volumes <> [] ->
  threshold (calculate_dynamic_threshold volumes low)
  <= threshold (calculate_dynamic_threshold volumes medium)
  /\ threshold (calculate_dynamic_threshold volumes medium)
     <= threshold (calculate_dynamic_threshold volumes high).
Proof.
  intros Hne.
  pose proof (std_nonneg volumes) as Hstd.
  cbn -[py_max3 py_max percentile].
  split; apply py_max3_mono; try lra.
  - apply py_max_mono; lra.
  - apply percentile_monotone; [assumption | lia | lia].
  - apply py_max_mono; lra.
  - apply percentile_monotone; [assumption | lia | lia].
Qed.

(** X7: on one and the same sample a higher sensitivity never gives a
    lower threshold: low <= medium <= high. *)
Theorem threshold_grows_with_sensitivity (volumes : list R) :
  volumes <> [] ->
  threshold (calculate_dynamic_threshold volumes low)
  <= threshold (calculate_dynamic_threshold volumes medium)
  /\ threshold (calculate_dynamic_threshold volumes medium)
     <= threshold (calculate_dynamic_threshold volumes high).
Proof. apply threshold_sensitivity_order. Qed.

Lemma threshold_grows_with_sensitivity_witness :
  threshold (calculate_dynamic_threshold six_counts low)
  <= threshold (calculate_dynamic_threshold six_counts medium).
Proof.
  apply (threshold_grows_with_sensitivity six_counts). discriminate.
Defined.

(** ** Extreme counts and the order of the sensitivities *)

Lemma history_nonempty (s : sensitivity) (history : list row) :
  (min_weeks (SENSITIVITY_CONFIGS s) <= length history)%nat ->
  map volume history <> [].
Proof.
  pose proof (min_weeks_ge_4 s). destruct history; simpl; [lia | discriminate].
Qed.

(** The loop body on a category observed at the checked date, with enough
    prior observations. *)
Lemma check_group_observed (check_date : Z) (s : sensitivity)
  (current_week_data group : list row) (k : key)
  (first : row) (rest : list row) :
  rows_of k current_week_data = first :: rest ->
  (min_weeks (SENSITIVITY_CONFIGS s)
   <= length (before check_date group))%nat ->
  let t := calculate_dynamic_threshold
             (map volume (before check_date group)) s in
  (volume first < threshold t ->
   exists a, check_group check_date s current_week_data k group = [a]
             /\ kind a = VOLUME_DROP)
  /\ (~ volume first < threshold t ->
      check_group check_date s current_week_data k group = []).
Proof.
  intros Hcur Hhist t.
  pose proof (before_length check_date group) as Hlen.
  unfold check_group. rewrite Hcur.
  replace (length group <? _)%nat with false
    by (symmetry; apply Nat.ltb_ge; lia).
  replace (length (before check_date group) <? _)%nat with false
    by (symmetry; apply Nat.ltb_ge; exact Hhist).
  fold t. destruct (Rltb_spec (volume first) (threshold t)).
  - split; [intros _ | contradiction]. eexists. split; reflexivity.
  - split; [contradiction | reflexivity].
Qed.

(** X6: for a category observed at the checked date with at least
    [min_weeks] prior observations, a count strictly below every prior
    count always raises a VOLUME_DROP alert, and, counts being
    non-negative, a count that no prior count exceeds never raises one. *)
Theorem extreme_counts
  (df : list row) (check_date : Z) (s : sensitivity) (k : key)
  (first : row) (rest : list row) :
  rows_of k (on_date check_date df) = first :: rest ->
  (min_weeks (SENSITIVITY_CONFIGS s)
   <= length (before check_date (rows_of k df)))%nat ->
  let history := before check_date (rows_of k df) in
  let alerts := alerts_for k (detect_weekly_alerts df check_date s) in
  ((forall r, In r history -> volume first < volume r) ->
   exists a, alerts = [a] /\ kind a = VOLUME_DROP)
  /\ (Forall (fun r => 0 <= volume r) df ->
      (forall r, In r history -> volume r <= volume first) ->
      alerts = []).
Proof.
  intros Hcur Hhist history alerts.
  pose proof (history_nonempty s history Hhist) as Hne.
  assert (Hweek : on_date check_date df <> []).
  { intros E. rewrite E in Hcur. discriminate. }
  assert (Hgroup : rows_of k df <> []).
  { intros E. unfold history in Hne. rewrite E in Hne. now apply Hne. }
  unfold alerts. rewrite alerts_for_category by assumption.
  destruct (check_group_observed check_date s (on_date check_date df)
              (rows_of k df) k first rest Hcur Hhist) as [Hyes Hno].
  fold history in Hyes, Hno.
  destruct (threshold_bounds (map volume history) s Hne)
    as [Hmin Hmax].
  split.
  - intros Hbelow. apply Hyes.
    eapply Rlt_le_trans; [| exact Hmin].
    pose proof (np_min_In (map volume history) Hne) as Hin.
    apply in_map_iff in Hin. destruct Hin as (r & <- & Hr).
    now apply Hbelow.
  - intros Hpos Habove. apply Hno.
    assert (Hvols : Forall (Rle 0) (map volume history)).
    { apply Forall_map, Forall_forall. intros r Hr.
      unfold history, before in Hr. apply filter_In in Hr.
      destruct Hr as [Hr _]. apply rows_of_In in Hr.
      rewrite Forall_forall in Hpos. apply Hpos. tauto. }
    specialize (Hmax Hvols).
    pose proof (np_max_In (map volume history) Hne) as Hin.
    apply in_map_iff in Hin. destruct Hin as (r & E & Hr).
    specialize (Habove r Hr). lra.
Qed.

Lemma extreme_counts_witness :
  exists a,
    alerts_for steady_key (detect_weekly_alerts history_and_drop 42 medium)
    = [a]
    /\ kind a = VOLUME_DROP.
Proof.
  apply (extreme_counts history_and_drop 42 medium steady_key
           {| app := "APP_01"; message_type := "MT103";
              week_start_date := 42; volume := 10 |} []).
  - reflexivity.
  - simpl. lia.
  - simpl. intros r Hr.
    repeat (destruct Hr as [<- | Hr]; [simpl; lra |]). destruct Hr.
Defined.

(** The loop body on a category with no observation at the checked date
    and enough prior observations. *)
Lemma check_group_missing (check_date : Z) (s : sensitivity)
  (current_week_data group : list row) (k : key) :
  rows_of k current_week_data = [] ->
  (min_weeks (SENSITIVITY_CONFIGS s)
   <= length (before check_date group))%nat ->
  check_group check_date s current_week_data k group <> [].
Proof.
  intros Hcur Hhist.
  pose proof (before_length check_date group) as Hlen.
  unfold check_group. rewrite Hcur.
  replace (length group <? _)%nat with false
    by (symmetry; apply Nat.ltb_ge; lia).
  replace (_ <=? _)%nat with true by (symmetry; apply Nat.leb_le; lia).
  discriminate.
Qed.

Lemma alerts_raise_with_threshold
  (df : list row) (check_date : Z) (s s' : sensitivity) (k : key) :
  (min_weeks (SENSITIVITY_CONFIGS s')
   <= min_weeks (SENSITIVITY_CONFIGS s))%nat ->
  (forall volumes, volumes <> [] ->
     threshold (calculate_dynamic_threshold volumes s)
     <= threshold (calculate_dynamic_threshold volumes s')) ->
  alerts_for k (detect_weekly_alerts df check_date s) <> [] ->
  alerts_for k (detect_weekly_alerts df check_date s') <> [].
Proof.
  intros Hweeks Hthr Hsome.
  destruct (alerts_for k (detect_weekly_alerts df check_date s))
    as [| a rest] eqn:E; [contradiction |].
  assert (Ha : In a (alerts_for k (detect_weekly_alerts df check_date s)))
    by (rewrite E; now left).
  unfold alerts_for in Ha. apply filter_In in Ha. destruct Ha as [Ha Hk].
  apply key_eqb_eq in Hk.
  apply detect_weekly_alerts_inv in Ha. destruct Ha as [Hweek Ha].
  rewrite Hk in Ha. apply check_group_inv in Ha.
  destruct Ha as (Hlen & _ & _ & _ & _ & Hkind).
  set (history := before check_date (rows_of k df)) in *.
  pose proof (history_nonempty s history Hlen) as Hne.
  assert (Hgroup : rows_of k df <> []).
  { intros E'. unfold history in Hne. rewrite E' in Hne. now apply Hne. }
  rewrite alerts_for_category by assumption.
  destruct Hkind as [(_ & Hnone & _)
                    | (_ & (first & more & Hrows & Hvol) & Hlt & _)].
  - apply check_group_missing; [assumption | fold history; lia].
  - destruct (check_group_observed check_date s' (on_date check_date df)
                (rows_of k df) k first more Hrows
                ltac:(fold history; lia)) as [Hyes _].
    fold history in Hyes.
    destruct Hyes as (a' & -> & _); [| discriminate].
    rewrite Hvol in Hlt.
    eapply Rlt_le_trans; [exact Hlt | now apply Hthr].
Qed.

(** X8: a category that is alerted at a lower sensitivity is alerted at
    every higher one, on the same frame and date: low implies medium, and
    medium implies high. *)
Theorem alerts_grow_with_sensitivity
  (df : list row) (check_date : Z) (k : key) :
  (alerts_for k (detect_weekly_alerts df check_date low) <> [] ->
   alerts_for k (detect_weekly_alerts df check_date medium) <> [])
  /\ (alerts_for k (detect_weekly_alerts df check_date medium) <> [] ->
      alerts_for k (detect_weekly_alerts df check_date high) <> []).
Proof.
  split; apply alerts_raise_with_threshold; simpl; try lia;
    intros volumes Hne; now apply threshold_sensitivity_order.
Qed.

Lemma alerts_grow_with_sensitivity_witness :
  alerts_for steady_key
             (detect_weekly_alerts history_and_other_category 42 high)
  <> [].
Proof.
  apply (alerts_grow_with_sensitivity history_and_other_category 42
           steady_key).
  rewrite alerts_for_category by (simpl; discriminate).
  apply check_group_missing; [reflexivity | simpl; lia].
Defined.

(** ** The frequency detector: what does not change its answer *)

Lemma sorted_perm_unique (l1 l2 : list Z) :
  StronglySorted Z.le l1 -> StronglySorted Z.le l2 ->
  Permutation l1 l2 -> l1 = l2.
Proof.
  intros H1. revert l2.
  induction H1 as [| x t1 Ht1 IH Hx]; intros l2 H2 Hp.
  - apply Permutation_nil in Hp. now subst.
  - destruct H2 as [| y t2 Ht2 Hy].
    + apply Permutation_sym, Permutation_nil in Hp. discriminate.
    + assert (x = y).
      { rewrite Forall_forall in Hx, Hy.
        assert (In x (y :: t2)) as [-> | Hin]
            by (apply (Permutation_in _ Hp); now left); [reflexivity |].
        assert (In y (x :: t1)) as [-> | Hin']
            by (apply (Permutation_in _ (Permutation_sym Hp)); now left);
          [reflexivity |].
        specialize (Hx y Hin'). specialize (Hy x Hin). lia. }
      subst y. f_equal. apply IH; [assumption |].
      now apply Permutation_cons_inv in Hp.
Qed.

Lemma sorted_dates (dates : list Z) :
  StronglySorted Z.le (sort_by Z.leb dates).
Proof.
  assert (H : StronglySorted (fun a b => (a <=? b)%Z = true)
                             (sort_by Z.leb dates)).
  { apply Sorted_StronglySorted.
    - intros x y z. rewrite !Z.leb_le. lia.
    - apply sort_by_sorted, Zleb_total. }
  induction H as [| x l Hs IH Hx]; constructor; [exact IH |].
  eapply Forall_impl; [| exact Hx]. intros y. apply Z.leb_le.
Qed.

Lemma sort_dates_perm (dates dates' : list Z) :
  Permutation dates dates' ->
  sort_by Z.leb dates = sort_by Z.leb dates'.
Proof.
  intros Hp. apply sorted_perm_unique; try apply sorted_dates.
  rewrite (sort_by_perm Z.leb dates), (sort_by_perm Z.leb dates').
  exact Hp.
Qed.

Lemma insert_shift (c x : Z) (l : list Z) :
  insert_by Z.leb (x + c)%Z (map (fun d => (d + c)%Z) l)
  = map (fun d => (d + c)%Z) (insert_by Z.leb x l).
Proof.
  induction l as [| y t IH]; simpl; [reflexivity |].
  replace (x + c <=? y + c)%Z with (x <=? y)%Z
    by (destruct (Z.leb_spec x y), (Z.leb_spec (x + c) (y + c)); lia).
  destruct (x <=? y)%Z; simpl; [reflexivity | now rewrite IH].
Qed.

Lemma sort_shift (c : Z) (l : list Z) :
  sort_by Z.leb (map (fun d => (d + c)%Z) l)
  = map (fun d => (d + c)%Z) (sort_by Z.leb l).
Proof.
  induction l as [| x t IH]; simpl; [reflexivity |].
  now rewrite IH, insert_shift.
Qed.

Lemma gaps_of_shift (c : Z) (l : list Z) :
  gaps_of (map (fun d => (d + c)%Z) l) = gaps_of l.
Proof.
  induction l as [| x [| y t] IH]; try reflexivity.
  change (gaps_of (map (fun d => (d + c)%Z) (x :: y :: t)))
    with ((y + c - (x + c))%Z
          :: gaps_of (map (fun d => (d + c)%Z) (y :: t))).
  rewrite IH. simpl. f_equal. lia.
Qed.

(** X9: the answer of the detector depends neither on the order in which
    the dates are given nor on where the calendar starts: a permutation of
    the dates, and a shift of all dates by the same number of days, leave
    the whole tuple unchanged. *)
Theorem pattern_ignores_order_and_origin
  (dates dates' : list Z) (shift : Z) :
  Permutation dates dates' ->
  analyze_occurrence_pattern dates' = analyze_occurrence_pattern dates
  /\ analyze_occurrence_pattern (map (fun d => (d + shift)%Z) dates)
     = analyze_occurrence_pattern dates.
Proof.
  intros Hp. unfold analyze_occurrence_pattern. split.
  - rewrite <- (Permutation_length Hp), <- (sort_dates_perm _ _ Hp).
    reflexivity.
  - now rewrite length_map, sort_shift, gaps_of_shift.
Qed.

Lemma pattern_ignores_order_and_origin_witness :
  analyze_occurrence_pattern [14; 0; 7]%Z
  = analyze_occurrence_pattern [0; 7; 14]%Z.
Proof.
  apply (pattern_ignores_order_and_origin [0; 7; 14]%Z [14; 0; 7]%Z 0).
  apply Permutation_sym.
  change [14; 0; 7]%Z with ([14]%Z ++ [0; 7]%Z).
  change [0; 7; 14]%Z with ([0; 7]%Z ++ [14]%Z).
  apply Permutation_app_comm.
Defined.

(** ** The frequency detector: bands and labels *)

(** The detector on two dates or more. *)
Lemma analyze_two_or_more (dates : list Z) :
  (2 <= length dates)%nat ->
  let gaps := map IZR (gaps_of (sort_by Z.leb dates)) in
  let avg_gap := mean gaps in
  let r := py_max 0 (1 - py_min (if Rltb 0 avg_gap
                                 then std gaps / avg_gap else 1) 1) in
  analyze_occurrence_pattern dates
  = if Rltb r 0.3 && (3 <? length gaps)%nat
    then (irregular, 1 - r, avg_gap, r)
    else (fst (classify avg_gap r), snd (classify avg_gap r), avg_gap, r).
Proof.
  intros Hlen gaps avg_gap r. unfold analyze_occurrence_pattern.
  replace (length dates <? 2)%nat with false
    by (symmetry; apply Nat.ltb_ge; exact Hlen).
  fold gaps.
  replace (length gaps =? 0)%nat with false.
  2: { symmetry. apply Nat.eqb_neq. unfold gaps.
       rewrite length_map, gaps_of_length, sort_by_length. lia. }
  fold avg_gap. fold r.
  destruct (classify avg_gap r) as [f c]. reflexivity.
Qed.

Lemma evenly_spaced_from (start g : Z) (k n : nat) :
  (0 <= g)%Z ->
  let l := map (fun i => (start + g * Z.of_nat i)%Z) (seq k (S n)) in
  Sorted (fun a b => (a <=? b)%Z = true) l /\ gaps_of l = repeat g n.
Proof.
  intros Hg. revert k. induction n as [| n IH]; intros k.
  - simpl. split; repeat constructor.
  - destruct (IH (S k)) as [Hs Hgap].
    change (seq k (S (S n))) with (k :: seq (S k) (S n)).
    rewrite map_cons.
    change (seq (S k) (S n)) with (S k :: seq (S (S k)) n) in *.
    rewrite map_cons in *.
    split.
    + constructor; [exact Hs |]. constructor. apply Z.leb_le. lia.
    + change (gaps_of (?a :: ?b :: ?t)) with ((b - a)%Z :: gaps_of (b :: t)).
      rewrite Hgap. simpl repeat. f_equal. lia.
Qed.

(** The classification of a perfectly regular series, by its gap. *)
Lemma classify_regular (g : R) :
  0 < g ->
  (g <= 10 -> classify g 1 = (daily, 1))
  /\ (10 < g <= 21 -> classify g 1 = (weekly, 1))
  /\ (21 < g <= 45 -> classify g 1 = (biweekly, 1))
  /\ (45 < g <= 120 -> classify g 1 = (monthly, 1 * 0.8))
  /\ (120 < g <= 270 -> classify g 1 = (quarterly, 1 * 0.7))
  /\ (270 < g -> classify g 1 = (semi_annual, 1 * 0.5)).
Proof.
  intros Hg. unfold classify.
  repeat split; intros H; rcases; reflexivity.
Qed.

(** X10: a series of two or more dates spaced exactly [g > 0] days apart
    has average gap [g] and regularity 1, is never called irregular, and
    is labelled by its gap alone: daily up to 10 days, weekly up to 21,
    biweekly up to 45, monthly up to 120 (confidence 0.8), quarterly up to
    270 (confidence 0.7), semi_annual beyond (confidence 0.5). *)
Theorem regular_series_labels (start g : Z) (n : nat) :
  (0 < g)%Z -> (2 <= n)%nat ->
  let '(f, c, avg_gap, r) :=
    analyze_occurrence_pattern (evenly_spaced start g n) in
  avg_gap = IZR g /\ r = 1
  /\ ((g <= 10)%Z -> f = daily /\ c = 1)
  /\ ((10 < g <= 21)%Z -> f = weekly /\ c = 1)
  /\ ((21 < g <= 45)%Z -> f = biweekly /\ c = 1)
  /\ ((45 < g <= 120)%Z -> f = monthly /\ c = 0.8)
  /\ ((120 < g <= 270)%Z -> f = quarterly /\ c = 0.7)
  /\ ((270 < g)%Z -> f = semi_annual /\ c = 0.5).
Proof.
  intros Hg Hn.
  destruct n as [| [| m]]; try lia.
  destruct (evenly_spaced_from start g 0 (S m) ltac:(lia)) as [Hs Hgap].
  fold (evenly_spaced start g (S (S m))) in Hs, Hgap.
  rewrite analyze_two_or_more
    by (unfold evenly_spaced; rewrite length_map, length_seq; lia).
  rewrite (sort_by_sorted_id _ _ Hs), Hgap, map_repeat.
  rewrite mean_repeat, std_repeat.
  assert (HgR : 0 < IZR g) by (apply IZR_lt; exact Hg).
  replace (if Rltb 0 (IZR g) then 0 / IZR g else 1) with 0
    by (destruct (Rltb_spec 0 (IZR g)); lra).
  replace (py_min 0 1) with 0 by (unfold py_min; rcases).
  replace (py_max 0 (1 - 0)) with 1 by (unfold py_max; rcases).
  replace (Rltb 1 0.3) with false by (destruct (Rltb_spec 1 0.3); lra).
  cbn [andb]. cbv iota beta.
  destruct (classify_regular (IZR g) HgR)
    as (H1 & H2 & H3 & H4 & H5 & H6).
  do 2 (split; [reflexivity |]).
  pose proof (IZR_le g 10). pose proof (IZR_lt 10 g).
  pose proof (IZR_le g 21). pose proof (IZR_lt 21 g).
  pose proof (IZR_le g 45). pose proof (IZR_lt 45 g).
  pose proof (IZR_le g 120). pose proof (IZR_lt 120 g).
  pose proof (IZR_le g 270). pose proof (IZR_lt 270 g).
  repeat match goal with |- _ /\ _ => split end; intros Hband;
    first [ rewrite H1 by tauto | rewrite H2 by tauto
          | rewrite H3 by tauto | rewrite H4 by tauto
          | rewrite H5 by tauto | rewrite H6 by tauto ];
    simpl; split; try reflexivity; lra.
Qed.

Lemma regular_series_labels_witness :
  fst (fst (fst (analyze_occurrence_pattern (evenly_spaced 0 91 4))))
  = monthly.
Proof.
  pose proof (regular_series_labels 0 91 4 ltac:(lia) ltac:(lia)) as H.
  destruct (analyze_occurrence_pattern (evenly_spaced 0 91 4))
    as [[[f c] avg_gap] r].
  simpl. apply H. lia.
Defined.

(** Case analysis on the tests of [classify]. *)
Ltac classify_cases :=
  unfold classify;
  repeat match goal with
         | |- context [Rltb ?a ?b] => destruct (Rltb_spec a b)
         | |- context [Rleb ?a ?b] => destruct (Rleb_spec a b)
         end;
  simpl.

Lemma classify_label (g r : R) :
  match fst (classify g r) with
  | daily => g <= 10 /\ 0.5 < r
  | weekly => 10 < g <= 21 /\ 0.4 < r
  | biweekly => 21 < g <= 45 /\ 0.4 < r
  | monthly => (21 < g <= 45 /\ r <= 0.4) \/ (45 < g <= 120 /\ 0.5 < r)
  | quarterly => (45 < g <= 120 /\ r <= 0.5) \/ (120 < g <= 270 /\ 0.5 < r)
  | semi_annual =>
      (120 < g <= 270 /\ r <= 0.5)
      \/ (0.3 < r /\ ((g <= 10 /\ r <= 0.5) \/ (10 < g <= 21 /\ r <= 0.4)
                      \/ 270 < g))
  | irregular =>
      r <= 0.3 /\ ((g <= 10 /\ r <= 0.5) \/ (10 < g <= 21 /\ r <= 0.4)
                   \/ 270 < g)
  | FrequencyDetector.insufficient_data | single_occurrence => False
  end.
Proof. classify_cases; lra. Qed.

(** X11: on two dates or more, every label certifies the band it was
    given in.  A series called daily has an average gap of at most 10 days
    and regularity above 0.5; weekly, a gap in (10, 21] and regularity
    above 0.4; biweekly, a gap in (21, 45] and regularity above 0.4;
    monthly, a gap in (21, 120]; quarterly, a gap in (45, 270];
    semi_annual, a gap above 120 days, or a gap of at most 21 days with
    regularity above 0.3; irregular, regularity at most 0.3.  The two
    sentinel labels are not returned. *)
Theorem labels_certify_bands (dates : list Z) :
  (2 <= length dates)%nat ->
  let '(f, _, avg_gap, r) := analyze_occurrence_pattern dates in
  match f with
  | daily => avg_gap <= 10 /\ 0.5 < r
  | weekly => 10 < avg_gap <= 21 /\ 0.4 < r
  | biweekly => 21 < avg_gap <= 45 /\ 0.4 < r
  | monthly => 21 < avg_gap <= 120
  | quarterly => 45 < avg_gap <= 270
  | semi_annual => 120 < avg_gap \/ (avg_gap <= 21 /\ 0.3 < r)
  | irregular => r <= 0.3
  | FrequencyDetector.insufficient_data | single_occurrence => False
  end.
Proof.
  intros Hlen. rewrite analyze_two_or_more by assumption.
  set (gaps := map IZR _). set (r := py_max 0 _).
  destruct (Rltb_spec r 0.3) as [Hr | Hr]; cbn [andb].
  - destruct (3 <? length gaps)%nat; [lra |].
    pose proof (classify_label (mean gaps) r) as H.
    destruct (fst (classify (mean gaps) r)); lra.
  - pose proof (classify_label (mean gaps) r) as H.
    destruct (fst (classify (mean gaps) r)); lra.
Qed.

Lemma labels_certify_bands_witness :
  let '(f, _, avg_gap, r) :=
    analyze_occurrence_pattern (evenly_spaced 0 7 52) in
  match f with
  | daily => avg_gap <= 10 /\ 0.5 < r
  | weekly => 10 < avg_gap <= 21 /\ 0.4 < r
  | biweekly => 21 < avg_gap <= 45 /\ 0.4 < r
  | monthly => 21 < avg_gap <= 120
  | quarterly => 45 < avg_gap <= 270
  | semi_annual => 120 < avg_gap \/ (avg_gap <= 21 /\ 0.3 < r)
  | irregular => r <= 0.3
  | FrequencyDetector.insufficient_data | single_occurrence => False
  end.
Proof.
  apply (labels_certify_bands (evenly_spaced 0 7 52)).
  unfold evenly_spaced. rewrite length_map, length_seq. lia.
Defined.

(** X12: a short average gap does not by itself give a frequent label.
    On two dates or more, when the average gap is at most 10 days with
    regularity at most 0.5, or in (10, 21] with regularity at most 0.4,
    the tests for daily and weekly fail and the series falls through every
    other band to the last branch: it is labelled semi_annual (regularity
    above 0.3, confidence half the regularity) or irregular. *)
Theorem short_gaps_fall_through (dates : list Z) :
  (2 <= length dates)%nat ->
  let '(f, c, avg_gap, r) := analyze_occurrence_pattern dates in
  (avg_gap <= 10 /\ r <= 0.5) \/ (10 < avg_gap <= 21 /\ r <= 0.4) ->
  (f = semi_annual /\ 0.3 <= r /\ c = r * 0.5)
  \/ (f = irregular /\ r <= 0.3).
Proof.
  intros Hlen. rewrite analyze_two_or_more by assumption.
  set (gaps := map IZR _). set (r := py_max 0 _).
  destruct (Rltb_spec r 0.3) as [Hr | Hr]; cbn [andb].
  - destruct (3 <? length gaps)%nat.
    + intros _. right. split; [reflexivity | lra].
    + intros Hband. right. revert Hband. classify_cases.
      all: intros Hband; split; [try reflexivity | lra]; lra.
  - intros Hband. revert Hband. classify_cases.
    all: intros Hband; try lra.
    all: first [ left; repeat split; [lra | lra]
               | left; repeat split; lra
               | right; split; [reflexivity | lra] ].
Qed.

(** Observations in weeks 0, 1 and 6: gaps of 7 and 35 days. *)
Lemma weeks_0_1_6_pattern :
  analyze_occurrence_pattern [0; 7; 42]%Z
  = (semi_annual, (1 - 14 / 21) * 0.5, 21, 1 - 14 / 21).
Proof.
  rewrite analyze_two_or_more by (simpl; lia).
  change (map IZR (gaps_of (sort_by Z.leb [0; 7; 42]%Z))) with [7; 35].
  assert (Hmean : mean [7; 35] = 21) by (unfold mean, sum; simpl; lra).
  assert (Hstd : std [7; 35] = 14).
  { unfold std. rewrite Hmean. simpl map.
    replace (mean _) with (14 * 14) by (unfold mean, sum; simpl; lra).
    apply sqrt_square. lra. }
  rewrite Hmean, Hstd.
  replace (if Rltb 0 21 then 14 / 21 else 1) with (14 / 21)
    by (destruct (Rltb_spec 0 21); lra).
  replace (py_min (14 / 21) 1) with (14 / 21) by (unfold py_min; rcases).
  replace (py_max 0 (1 - 14 / 21)) with (1 - 14 / 21)
    by (unfold py_max; rcases).
  replace (Rltb (1 - 14 / 21) 0.3) with false
    by (destruct (Rltb_spec (1 - 14 / 21) 0.3); lra).
  cbn [andb]. classify_cases; try lra; reflexivity.
Qed.

Lemma short_gaps_fall_through_witness :
  let '(f, c, _, r) := analyze_occurrence_pattern [0; 7; 42]%Z in
  (f = semi_annual /\ 0.3 <= r /\ c = r * 0.5)
  \/ (f = irregular /\ r <= 0.3).
Proof.
  pose proof (short_gaps_fall_through [0; 7; 42]%Z ltac:(simpl; lia)) as H.
  revert H. rewrite weeks_0_1_6_pattern. intros H.
  apply H. right. lra.
Defined.

(** ** The trend analyzer over its windows *)

Lemma data_points_length (volumes : list R) (dates : list Z) :
  data_points (calculate_trend_metrics volumes dates) = length volumes.
Proof.
  unfold calculate_trend_metrics.
  destruct (length volumes =? 0)%nat eqn:E.
  - apply Nat.eqb_eq in E. now rewrite E.
  - now destruct (2 <=? length volumes)%nat.
Qed.

Lemma direction_of_not_no_data (g : npfloat) :
  direction_of g <> no_data /\ direction_of g <> insufficient_data.
Proof.
  unfold direction_of.
  destruct (np_ltb (np_abs g) 5); [split; discriminate |].
  destruct (np_gtb g 5); split; discriminate.
Qed.

Lemma trend_direction_no_data (volumes : list R) (dates : list Z) :
  trend_direction (calculate_trend_metrics volumes dates) = no_data
  <-> volumes = [].
Proof.
  unfold calculate_trend_metrics.
  destruct volumes as [| v t]; [simpl; tauto |].
  change (length (v :: t) =? 0)%nat with false. cbv iota.
  destruct (2 <=? length (v :: t))%nat; simpl.
  - pose proof (direction_of_not_no_data (growth_rate (v :: t))).
    split; [tauto | discriminate].
  - split; discriminate.
Qed.

(** The rows of one window. *)
Lemma window_rows_length (group_df : list row) (reference cutoff : Z) :
  length (map volume
            (sort_by date_leb
               (filter (fun r => (cutoff <? week_start_date r)%Z
                                 && (week_start_date r <=? reference)%Z)
                       group_df)))
  = length (filter (fun r => (cutoff <? week_start_date r)%Z
                             && (week_start_date r <=? reference)%Z)
                   group_df).
Proof. now rewrite length_map, sort_by_length. Qed.

Lemma filter_length_mono {A : Type} (p q : A -> bool) (l : list A) :
  (forall x, p x = true -> q x = true) ->
  (length (filter p l) <= length (filter q l))%nat.
Proof.
  intros Hpq. induction l as [| x t IH]; simpl; [lia |].
  destruct (p x) eqn:Hp.
  - rewrite (Hpq x Hp). simpl. lia.
  - destruct (q x); simpl; lia.
Qed.

Lemma window_count_mono (group_df : list row) (reference : Z) (w w' : Z) :
  (w <= w')%Z ->
  (length (filter (fun r => (reference - 7 * w <? week_start_date r)%Z
                            && (week_start_date r <=? reference)%Z)
                  group_df)
   <= length (filter (fun r => (reference - 7 * w' <? week_start_date r)%Z
                               && (week_start_date r <=? reference)%Z)
                     group_df))%nat.
Proof.
  intros Hw. apply filter_length_mono. intros r.
  rewrite !andb_true_iff, !Z.ltb_lt, !Z.leb_le. lia.
Qed.

Lemma fold_left_Zmax_ge (t : list Z) (d : Z) :
  (d <= fold_left Z.max t d)%Z
  /\ (forall x, In x t -> (x <= fold_left Z.max t d)%Z)
  /\ In (fold_left Z.max t d) (d :: t).
Proof.
  revert d. induction t as [| y t IH]; intros d; simpl.
  - repeat split; [lia | easy | now left].
  - destruct (IH (Z.max d y)) as (H1 & H2 & H3).
    repeat split.
    + lia.
    + intros x [-> | Hx]; [lia | now apply H2].
    + destruct H3 as [E | H3]; [| auto].
      rewrite <- E. destruct (Z.max_spec d y) as [[_ ->] | [_ ->]]; auto.
Qed.

Lemma max_date_In (group_df : list row) :
  group_df <> [] ->
  exists r, In r group_df /\ week_start_date r = max_date group_df.
Proof.
  intros Hne. unfold max_date.
  destruct group_df as [| r0 t]; [contradiction |].
  simpl map.
  destruct (fold_left_Zmax_ge (map week_start_date t) (week_start_date r0))
    as (_ & _ & Hin).
  change (week_start_date r0 :: map week_start_date t)
    with (map week_start_date (r0 :: t)) in Hin.
  apply in_map_iff in Hin. destruct Hin as (r & E & Hr). eauto.
Qed.

(** X13: the multi-window analysis answers for the seven windows in their
    fixed order; a longer window never holds fewer points than a shorter
    one; and with the default reference date (the latest date of the
    group) every window of a non-empty group holds at least one point, so
    no window reports [no_data]. *)
Theorem windows_nest (group_df : list row) (reference_date : option Z) :
  let results := analyze_trends_multi_window group_df reference_date in
  map fst results
  = ["2_weeks"; "1_month"; "3_months"; "6_months"; "9_months";
     "12_months"; "18_months"]%string
  /\ StronglySorted le (map (fun e => data_points (snd e)) results)
  /\ (reference_date = None -> group_df <> [] ->
      Forall (fun e => (1 <= data_points (snd e))%nat
                       /\ trend_direction (snd e) <> no_data) results).
Proof.
  cbv zeta. split; [reflexivity | split].
  - unfold analyze_trends_multi_window, windows.
    set (reference := match reference_date with
                      | Some d => d | None => max_date group_df end).
    cbn [map fst snd].
    rewrite !data_points_length, !window_rows_length.
    repeat (constructor;
            [| repeat (constructor;
                       [apply window_count_mono; lia |]); constructor]).
    constructor.
  - intros -> Hne.
    destruct (max_date_In group_df Hne) as (r & Hr & Hdate).
    unfold analyze_trends_multi_window.
    apply Forall_forall. intros e He.
    apply in_map_iff in He. destruct He as (w & <- & Hw).
    cbn [snd].
    assert (Hpos : (0 < snd w)%Z).
    { unfold windows in Hw. simpl in Hw.
      repeat (destruct Hw as [<- | Hw]; [simpl; lia |]). destruct Hw. }
    assert (Hlen : (1 <= length
                        (map volume
                           (sort_by date_leb
                              (filter
                                 (fun r0 =>
                                    (max_date group_df - 7 * snd w
                                     <? week_start_date r0)%Z
                                    && (week_start_date r0
                                        <=? max_date group_df)%Z)
                                 group_df))))%nat).
    { rewrite window_rows_length.
      assert (In r (filter
                      (fun r0 =>
                         (max_date group_df - 7 * snd w
                          <? week_start_date r0)%Z
                         && (week_start_date r0 <=? max_date group_df)%Z)
                      group_df)) as Hin.
      { apply filter_In. split; [exact Hr |].
        rewrite andb_true_iff, Z.ltb_lt, Z.leb_le. lia. }
      destruct (filter _ group_df); [easy | simpl; lia]. }
    split.
    + now rewrite data_points_length.
    + rewrite trend_direction_no_data. intros E. rewrite E in Hlen.
      simpl in Hlen. lia.
Qed.

Lemma windows_nest_witness :
  Forall (fun e => (1 <= data_points (snd e))%nat
                   /\ trend_direction (snd e) <> no_data)
         (analyze_trends_multi_window steady_history None).
Proof.
  apply (windows_nest steady_history None).
  - reflexivity.
  - discriminate.
Defined.

(** ** Recent against historical *)






Lemma change_of_real (recent historical : R) :
  exists p, change_of recent historical = Num p.
Proof.
  unfold change_of. destruct (Rltb_spec 0 historical).
  - rewrite np_div_num by lra. simpl. eauto.
  - eauto.
Qed.

Lemma status_of_real (p : R) :
  (status_of (Num p) = status_normal <-> -10 <= p <= 10)
  /\ (status_of (Num p) = status_increasing <-> 10 < p)
  /\ (status_of (Num p) = status_decreasing <-> p < -10)
  /\ status_of (Num p) <> status_insufficient_data.
Proof.
  unfold status_of, np_ltb, np_gtb, np_abs.
  destruct (Rltb_spec (Rabs p) 10) as [Ha | Ha];
    destruct (Rltb_spec 10 p) as [Hg | Hg];
    destruct (Rltb_spec p (-10)) as [Hl | Hl];
    revert Ha; unfold Rabs; destruct (Rcase_abs p); intros Ha;
    repeat split; intros; try discriminate; try lra.
Qed.

(** X15: the comparison answers [insufficient_data] (with averages and
    change 0) exactly when the series has fewer than [recent_weeks + 4]
    observations.  Otherwise the change is a real number and the status
    is normal for a change between -10 and 10 percent, both bounds
    included, increasing above 10 and decreasing below -10. *)
Theorem comparison_status (group_df : list row) (recent_weeks : nat) :
  let c := compare_recent_to_historical group_df recent_weeks in
  ((length group_df < recent_weeks + 4)%nat ->
   status c = status_insufficient_data
   /\ recent_avg c = 0 /\ historical_avg c = 0 /\ change_pct c = Num 0)
  /\ ((recent_weeks + 4 <= length group_df)%nat ->
      exists p,
        change_pct c = Num p
        /\ (status c = status_normal <-> -10 <= p <= 10)
        /\ (status c = status_increasing <-> 10 < p)
        /\ (status c = status_decreasing <-> p < -10)).
Proof.
  cbv zeta. unfold compare_recent_to_historical. split; intros Hlen.
  - replace (length group_df <? recent_weeks + 4)%nat with true
      by (symmetry; apply Nat.ltb_lt; lia).
    repeat split.
  - replace (length group_df <? recent_weeks + 4)%nat with false
      by (symmetry; apply Nat.ltb_ge; lia).
    cbn [change_pct status].
    destruct (change_of_real
                (mean (map volume
                         (tail recent_weeks (sort_by date_leb group_df))))
                (mean (map volume
                         (all_but_last recent_weeks
                            (sort_by date_leb group_df)))))
      as (p & Hp).
    rewrite Hp. exists p. split; [reflexivity |].
    pose proof (status_of_real p). tauto.
Qed.

Lemma comparison_status_witness :
  status (compare_recent_to_historical steady_history 4)
  = status_insufficient_data.
Proof.
  apply (comparison_status steady_history 4). simpl. lia.
Defined.

(** ** The trend metrics under a change of unit *)










(** ** The first version: volume_analysis.py *)


(** X18: the three threshold calculators on the same sample.  The one of
    volume_analysis.py and the production one give the same mean, standard
    deviation and final threshold.  The pattern-aware one of
    volume_analysis_v2.py gives the production threshold at regularity 1
    and, for every regularity score up to 1, a threshold that is at most
    the production one. *)
Theorem calculators_compared
  (group_df : list row) (s : sensitivity) (regularity : R) :
  let volumes := map volume group_df in
  let v1 := VolumeAnalysis.calculate_thresholds group_df s in
  let prod := calculate_dynamic_threshold volumes s in
  let v2 := VolumeAnalysisV2.pattern_aware_threshold volumes regularity s in
  (VolumeAnalysis.final_threshold v1 = threshold prod
   /\ VolumeAnalysis.mean_of v1 = mean_vol prod
   /\ VolumeAnalysis.std_of v1 = std_vol prod)
  /\ (regularity <= 1 -> VolumeAnalysisV2.threshold v2 <= threshold prod)
  /\ (regularity = 1 -> VolumeAnalysisV2.threshold v2 = threshold prod).
Proof.
  cbv zeta. split; [repeat split |].
  pose proof (z_score_pos s) as Hz.
  pose proof (std_nonneg (map volume group_df)) as Hs.
  cbn -[py_max3 py_max percentile]. unfold VolumeAnalysisV2.adjusted_z.
  set (z := z_score (SENSITIVITY_CONFIGS s)) in *.
  split.
  - intros Hr.
    assert (Hadj : z <= z * (1 + (1 - regularity) * 0.5)) by nra.
    apply py_max3_mono; try lra.
    apply py_max_mono; [lra | nra].
  - intros ->.
    replace (z * (1 + (1 - 1) * 0.5)) with z by ring.
    reflexivity.
Qed.

Lemma calculators_compared_witness :
  VolumeAnalysisV2.threshold
    (VolumeAnalysisV2.pattern_aware_threshold
       (map volume steady_history) 0.25 medium)
  <= threshold (calculate_dynamic_threshold (map volume steady_history)
                                            medium).
Proof.
  apply (calculators_compared steady_history medium 0.25). lra.
Defined.

Lemma detect_frequency_rate (group_df : list row) (total_weeks : positive) :
  snd (VolumeAnalysis.detect_frequency group_df total_weeks)
  = INR (length group_df) / IZR (Zpos total_weeks).
Proof.
  unfold VolumeAnalysis.detect_frequency.
  repeat match goal with
         | |- context [if ?c then _ else _] => destruct c
         end; reflexivity.
Qed.

Lemma detect_frequency_rank (group_df : list row) (total_weeks : positive) :
  let rate := INR (length group_df) / IZR (Zpos total_weeks) in
  match frequency_rank
          (fst (VolumeAnalysis.detect_frequency group_df total_weeks)) with
  | 5%nat => 0.95 <= rate
  | 4%nat => 0.75 <= rate < 0.95
  | 3%nat => 0.35 <= rate < 0.75
  | 2%nat => 0.15 <= rate < 0.35
  | 1%nat => 0.05 <= rate < 0.15
  | _ => rate < 0.05
  end.
Proof.
  cbv zeta. unfold VolumeAnalysis.detect_frequency.
  repeat match goal with
         | |- context [Rleb ?a ?b] => destruct (Rleb_spec a b)
         end; simpl; lra.
Qed.

(** X19: the occurrence-rate classifier of volume_analysis.py is monotone:
    of two groups measured against the same number of weeks, the one with
    at least as many observations gets at least as frequent a label and at
    least as high a rate.  Its labels are the six cadences only, and an
    empty group is labelled semi_annual with rate 0. *)
Theorem detect_frequency_monotone
  (g1 g2 : list row) (total_weeks : positive) :
  (length g1 <= length g2)%nat ->
  let r1 := VolumeAnalysis.detect_frequency g1 total_weeks in
  let r2 := VolumeAnalysis.detect_frequency g2 total_weeks in
  (frequency_rank (fst r1) <= frequency_rank (fst r2))%nat
  /\ snd r1 <= snd r2
  /\ fst r1 <> irregular
  /\ fst r1 <> FrequencyDetector.insufficient_data
  /\ fst r1 <> single_occurrence
  /\ VolumeAnalysis.detect_frequency [] total_weeks = (semi_annual, 0 / IZR (Zpos total_weeks)).
Proof.
  intros Hlen. cbv zeta.
  assert (Htw : 0 < IZR (Zpos total_weeks)) by (apply IZR_lt; lia).
  assert (Hrate : INR (length g1) / IZR (Zpos total_weeks)
                  <= INR (length g2) / IZR (Zpos total_weeks)).
  { apply le_INR in Hlen. unfold Rdiv.
    apply Rmult_le_compat_r; [| exact Hlen].
    left. now apply Rinv_0_lt_compat. }
  pose proof (detect_frequency_rank g1 total_weeks) as H1.
  pose proof (detect_frequency_rank g2 total_weeks) as H2.
  cbv zeta in H1, H2.
  rewrite !detect_frequency_rate.
  split; [| split; [exact Hrate |]].
  - destruct (fst (VolumeAnalysis.detect_frequency g1 total_weeks));
      destruct (fst (VolumeAnalysis.detect_frequency g2 total_weeks));
      simpl in *; try lia; lra.
  - unfold VolumeAnalysis.detect_frequency.
    repeat split;
      repeat match goal with
             | |- context [Rleb ?a ?b] => destruct (Rleb_spec a b)
             end; simpl; try discriminate; try reflexivity.
    all: exfalso; simpl in *; unfold Rdiv in *; rewrite Rmult_0_l in *; lra.
Qed.

Lemma detect_frequency_monotone_witness :
  (frequency_rank
     (fst (VolumeAnalysis.detect_frequency steady_history 104))
   <= frequency_rank
        (fst (VolumeAnalysis.detect_frequency history_and_drop 104)))%nat.
Proof.
  apply (detect_frequency_monotone steady_history history_and_drop 104).
  simpl. lia.
Defined.

(** ** The default check date *)

(** X20: the default check date of the monitor is the Monday of the
    current week: it is a Monday, it is [today] or one of the six days
    before, and it is [today] itself on a Monday. *)
Theorem default_check_date_is_monday (today : Z) :
  weekday (default_check_date today) = 0%Z
  /\ (today - 6 <= default_check_date today <= today)%Z
  /\ (weekday today = 0%Z -> default_check_date today = today)
  /\ default_check_date (default_check_date today)
     = default_check_date today.
Proof.
  unfold default_check_date, weekday.
  pose proof (Z.mod_pos_bound (today + 6) 7 ltac:(lia)) as Hb.
  assert (H0 : ((today - (today + 6) mod 7 + 6) mod 7 = 0)%Z).
  { replace (today - (today + 6) mod 7 + 6)%Z
      with ((today + 6) - (today + 6) mod 7)%Z by lia.
    rewrite Zminus_mod, Zmod_mod, Z.sub_diag. reflexivity. }
  split; [exact H0 | split; [lia | split; [lia |]]].
  rewrite H0. lia.
Qed.

Lemma default_check_date_is_monday_witness :
  default_check_date 738522 = 738522%Z.
Proof.
  destruct (default_check_date_is_monday 738522) as (_ & _ & H & _).
  apply H. reflexivity.
Defined.
